(** * basketball_ref_webscraper: a shallow embedding of [webscraper.py]

    The development follows the layout of the Python module:

    - [Py]: the built-in string operations the module calls ([strip],
      slicing, [split], [replace], [int], [str], [re.search] with the one
      pattern used, [datetime.strptime] with the one format used);
    - [Soup]: the BeautifulSoup tree and the navigation calls the module
      makes on it ([find], [find_all], [.text], [.string], [.get], [[...]]);
    - [HtmlParser]: a small HTML reader, only used to run the extractors on
      concrete pages; every theorem is stated for an arbitrary parser, which
      gives the tree of a markup or raises;
    - [Fetcher]: the three decorators of [make_request] (tenacity's [retry],
      ratelimit's [sleep_and_retry] and [limits]) over an explicit clock;
    - the extractors [get_boxscore], [get_roster], [get_injury_report],
      [get_all_schedule], [get_team_schedule], [get_match_data].

    Python strings are Rocq strings; a character stands for a code point
    below 256. Exceptions are values of [exn]; a call that can raise returns
    a [result]. *)

From stdpp Require Import base strings list gmap.
From Stdlib Require Import ZArith QArith Lqa Lia Ascii DecimalString.

Set Warnings "-register-all".

Local Open Scope Z_scope.

(** ** Exceptions and results *)

(** The exception classes that can leave the module's functions, with the
    three classes of [requests.exceptions] that matter to the retry
    predicate. [OtherException] is any class outside these. *)
Inductive exn : Type :=
  | AttributeError
  | IndexError
  | KeyError
  | TypeError
  | ValueError
  | RequestException
  | ConnectionError
  | Timeout
  | OtherException (name : string).

Inductive result (A : Type) : Type :=
  | Ok (a : A)
  | Raise (e : exn).

Arguments Ok {A} a.
Arguments Raise {A} e.

Definition rbind {A B : Type} (r : result A) (k : A -> result B) : result B :=
  match r with
  | Ok a => k a
  | Raise e => Raise e
  end.

Definition rmap {A B : Type} (f : A -> B) (r : result A) : result B :=
  rbind r (fun a => Ok (f a)).

(** [x or_raise e]: the value of an optional, or the exception Python raises
    when the optional is [None] and the next operation is applied to it. *)
Definition or_raise {A : Type} (o : option A) (e : exn) : result A :=
  match o with
  | Some a => Ok a
  | None => Raise e
  end.

#[global] Instance result_ret : MRet result := @Ok.
#[global] Instance result_bind : MBind result := fun A B k r => rbind r k.
#[global] Instance result_fmap : FMap result := @rmap.

Fixpoint rmapM {A B : Type} (f : A -> result B) (l : list A) : result (list B) :=
  match l with
  | [] => Ok []
  | x :: l' =>
      rbind (f x) (fun y => rbind (rmapM f l') (fun ys => Ok (y :: ys)))
  end.

(** ** Python string operations *)

Module Py.

Definition code (c : ascii) : nat := nat_of_ascii c.

(** [str.isspace] on code points below 256. *)
Definition isspace (c : ascii) : bool :=
  let n := code c in
  ((9 <=? n) && (n <=? 13))%nat || ((28 <=? n) && (n <=? 32))%nat
  || (n =? 133)%nat || (n =? 160)%nat.

Definition isdigit (c : ascii) : bool :=
  let n := code c in ((48 <=? n) && (n <=? 57))%nat.

Definition digit_value (c : ascii) : Z := Z.of_nat (code c) - 48.

Definition is_empty (s : string) : bool :=
  match s with EmptyString => true | String _ _ => false end.

Fixpoint lstrip (s : string) : string :=
  match s with
  | EmptyString => EmptyString
  | String c s' => if isspace c then lstrip s' else s
  end.

Fixpoint rstrip (s : string) : string :=
  match s with
  | EmptyString => EmptyString
  | String c s' =>
      let r := rstrip s' in
      if isspace c && is_empty r then EmptyString else String c r
  end.

(** [s.strip()] *)
Definition strip (s : string) : string := rstrip (lstrip s).

(** [s[i:j]] for non-negative [i <= j]; like Python it truncates at the
    end of the string instead of raising. *)
Definition slice (i j : nat) (s : string) : string :=
  String.substring i (j - i) s.

Definition starts_with (p s : string) : bool := String.prefix p s.

Fixpoint drop (n : nat) (s : string) : string :=
  match n, s with
  | O, _ => s
  | S n', String _ s' => drop n' s'
  | S _, EmptyString => EmptyString
  end.

(** [s.split(sep)] for a one-character separator. *)
Fixpoint split_go (sep : ascii) (cur : string) (s : string) : list string :=
  match s with
  | EmptyString => [String.rev cur]
  | String c s' =>
      if Ascii.eqb c sep then String.rev cur :: split_go sep EmptyString s'
      else split_go sep (String c cur) s'
  end.

Definition split (sep : ascii) (s : string) : list string :=
  split_go sep EmptyString s.

(** [s.split()] with no argument: runs of whitespace separate the words. *)
Fixpoint words_go (cur : option string) (s : string) : list string :=
  match s with
  | EmptyString =>
      match cur with Some w => [String.rev w] | None => [] end
  | String c s' =>
      if isspace c then
        match cur with
        | Some w => String.rev w :: words_go None s'
        | None => words_go None s'
        end
      else
        words_go (Some (String c (default EmptyString cur))) s'
  end.

Definition words (s : string) : list string := words_go None s.

(** [s.replace(old, new)] for a non-empty [old]: the occurrences are
    replaced left to right and do not overlap. [skip] counts the
    characters of a matched occurrence still to be dropped. *)
Fixpoint replace_go (old new : string) (skip : nat) (s : string) : string :=
  match s with
  | EmptyString => EmptyString
  | String c s' =>
      match skip with
      | S k => replace_go old new k s'
      | O =>
          if starts_with old s
          then new +:+ replace_go old new (String.length old - 1) s'
          else String c (replace_go old new O s')
      end
  end.

Definition replace (old new s : string) : string := replace_go old new O s.

(** [l[-1]] *)
Definition last_item {A : Type} (l : list A) : option A := last l.

(** The digits of [int(...)]: one or more decimal digits, where single
    underscores may separate digits. *)
Fixpoint int_digits (acc : Z) (after_digit : bool) (s : string) : option Z :=
  match s with
  | EmptyString => if after_digit then Some acc else None
  | String c s' =>
      if isdigit c then int_digits (10 * acc + digit_value c) true s'
      else if Ascii.eqb c "_"%char && after_digit then int_digits acc false s'
      else None
  end.

(** [sys.get_int_max_str_digits()], which the module leaves at the
    default of the interpreter: a decimal text with more digits is not
    converted. *)
Definition int_max_str_digits : nat := 4300.

Definition count_digits (s : string) : nat :=
  List.length (List.filter isdigit (String.list_ascii_of_string s)).

Definition int_literal (t : string) : option Z :=
  if (count_digits t <=? int_max_str_digits)%nat then int_digits 0 false t else None.

(** [int(s)] for a string: surrounding whitespace is dropped, one sign is
    allowed; [None] stands for [ValueError]. *)
Definition int (s : string) : option Z :=
  match strip s with
  | String "+"%char r => int_literal r
  | String "-"%char r => Z.opp <$> int_literal r
  | t => int_literal t
  end.

(** [str(n)] for an integer, as an f-string formats it; the integers
    meant are those the interpreter converts, of [int_max_str_digits]
    digits at most (a season year has four). *)
Definition str (n : Z) : string := NilZero.string_of_int (Z.to_int n).

(** [re.search(r'Game (\d)', s).group(1)]: the digit that follows the
    leftmost occurrence of "Game " that is followed by a digit. *)
Fixpoint search_game (s : string) : option string :=
  match s with
  | EmptyString => None
  | String _ s' =>
      if starts_with "Game " s then
        match drop 5 s with
        | String d _ =>
            if isdigit d then Some (String d EmptyString) else search_game s'
        | EmptyString => search_game s'
        end
      else search_game s'
  end.

(** *** [datetime.datetime.strptime(s, '%Y%m%d')] *)

Record datetime : Type := mk_datetime { year : Z; month : Z; day : Z }.

Definition char_in (lo hi : nat) (c : ascii) : bool :=
  ((lo <=? code c) && (code c <=? hi))%nat.

(** The directive [%Y] is the pattern [\d\d\d\d]. *)
Definition match_Y (s : string) : option (string * string) :=
  match s with
  | String a (String b (String c (String d r))) =>
      if isdigit a && isdigit b && isdigit c && isdigit d
      then Some (slice 0 4 s, r) else None
  | _ => None
  end.

(** The directive [%m] is [1[0-2]|0[1-9]|[1-9]]; the list holds the ways
    it matches a prefix of [s], in the order the regex engine tries. *)
Definition match_m (s : string) : list (string * string) :=
  match s with
  | String a r =>
      (match r with
       | String b r' =>
           (if Ascii.eqb a "1"%char && char_in 48 50 b then [(slice 0 2 s, r')] else [])
           ++ (if Ascii.eqb a "0"%char && char_in 49 57 b then [(slice 0 2 s, r')] else [])
       | EmptyString => []
       end)
      ++ (if char_in 49 57 a then [(slice 0 1 s, r)] else [])
  | EmptyString => []
  end.

(** The directive [%d] is [3[0-1]|[1-2]\d|0[1-9]|[1-9]| [1-9]]. *)
Definition match_d (s : string) : list (string * string) :=
  match s with
  | String a r =>
      (match r with
       | String b r' =>
           (if Ascii.eqb a "3"%char && char_in 48 49 b then [(slice 0 2 s, r')] else [])
           ++ (if char_in 49 50 a && isdigit b then [(slice 0 2 s, r')] else [])
           ++ (if Ascii.eqb a "0"%char && char_in 49 57 b then [(slice 0 2 s, r')] else [])
       | EmptyString => []
       end)
      ++ (if char_in 49 57 a then [(slice 0 1 s, r)] else [])
      ++ (match r with
          | String b r' =>
              if Ascii.eqb a " "%char && char_in 49 57 b then [(slice 0 2 s, r')] else []
          | EmptyString => []
          end)
  | EmptyString => []
  end.

(** The first match of the whole pattern at the start of [s]: the groups
    and what is left of [s]. The engine backtracks over the alternatives
    of [%m] only while [%d] fails behind them. *)
Definition match_Ymd (s : string) : option (string * string * string * string) :=
  match match_Y s with
  | None => None
  | Some (y, r) =>
      head (flat_map (fun '(m, r1) =>
              map (fun '(d, r2) => (y, m, d, r2)) (match_d r1)) (match_m r))
  end.

Definition is_leap (y : Z) : bool :=
  ((y mod 4 =? 0) && negb (y mod 100 =? 0)) || (y mod 400 =? 0).

Definition days_in_month (y m : Z) : Z :=
  if m =? 2 then (if is_leap y then 29 else 28)
  else if (m =? 4) || (m =? 6) || (m =? 9) || (m =? 11) then 30
  else 31.

(** [None] stands for [ValueError]: the text does not match the format,
    text is left after the match, or the day does not exist. *)
Definition strptime_Ymd (s : string) : option datetime :=
  match match_Ymd s with
  | Some (ys, ms, ds, EmptyString) =>
      match int ys, int ms, int ds with
      | Some y, Some m, Some d =>
          if (1 <=? y) && (1 <=? d) && (d <=? days_in_month y m)
          then Some (mk_datetime y m d) else None
      | _, _, _ => None
      end
  | _ => None
  end.

End Py.


(** ** The BeautifulSoup tree *)

Module Soup.

(** A page element: a tag with its attributes and contents, a text node
    ([NavigableString]) or a comment ([Comment], which bs4 derives from
    [NavigableString]). The [BeautifulSoup] object is itself a tag, named
    "[document]". *)
Inductive node : Type :=
  | Tag (name : string) (attrs : list (string * string)) (contents : list node)
  | NavigableString (s : string)
  | Comment (s : string).

Definition document (contents : list node) : node :=
  Tag "[document]" [] contents.

(** [tag.descendants]: every element below the tag, in document order. *)
Fixpoint descendants (n : node) : list node :=
  match n with
  | Tag _ _ cs => flat_map (fun c => c :: descendants c) cs
  | _ => []
  end.

(** [tag.get(key)]: [None] when the attribute is absent. *)
Fixpoint lookup_attr (key : string) (attrs : list (string * string)) : option string :=
  match attrs with
  | [] => None
  | (k, v) :: rest => if String.eqb k key then Some v else lookup_attr key rest
  end.

Definition get (key : string) (n : node) : option string :=
  match n with
  | Tag _ attrs _ => lookup_attr key attrs
  | _ => None
  end.

(** [tag[key]]: [KeyError] when the attribute is absent. *)
Definition getitem (key : string) (n : node) : result string :=
  or_raise (get key n) KeyError.

(** [tag.text]: the text nodes below the tag, joined; comments are not
    part of it. *)
Definition text (n : node) : string :=
  String.concat ""
    (flat_map (fun d => match d with NavigableString s => [s] | _ => [] end)
       (descendants n)).

(** [tag.string]: the only child when it is a string, the [.string] of the
    only child when it is a tag, [None] with no child or several. *)
Fixpoint string_of (n : node) : option string :=
  match n with
  | Tag _ _ [c] =>
      match c with
      | NavigableString s => Some s
      | Comment s => Some s
      | Tag _ _ _ => string_of c
      end
  | _ => None
  end.

(** What a search asks of one attribute: a given value, or [True] (the
    attribute is present). *)
Inductive attr_filter : Type :=
  | AttrIs (v : string)
  | AttrTrue.

(** [class] is kept by bs4 as the list of its words; a value matches when
    one of the words does, or the words joined by one space do. *)
Definition value_matches (key wanted value : string) : bool :=
  if String.eqb key "class" then
    existsb (String.eqb wanted) (Py.words value)
    || String.eqb wanted (String.concat " " (Py.words value))
  else String.eqb wanted value.

Definition attr_matches (attrs : list (string * string)) (f : string * attr_filter) : bool :=
  match lookup_attr (fst f) attrs, snd f with
  | None, _ => false
  | Some _, AttrTrue => true
  | Some v, AttrIs w => value_matches (fst f) w v
  end.

Definition tag_matches (name : string) (filters : list (string * attr_filter)) (n : node) : bool :=
  match n with
  | Tag nm attrs _ => String.eqb nm name && forallb (attr_matches attrs) filters
  | _ => false
  end.

(** [tag.find_all(name, attrs)] and [tag.find(name, attrs)]. *)
Definition find_all (name : string) (filters : list (string * attr_filter)) (root : node) : list node :=
  List.filter (tag_matches name filters) (descendants root).

Definition find (name : string) (filters : list (string * attr_filter)) (root : node) : option node :=
  head (find_all name filters root).

(** [lambda text: text and text.strip()], applied by bs4 to [tag.string]. *)
Definition has_visible_string (n : node) : bool :=
  match string_of n with
  | Some s => negb (Py.is_empty s) && negb (Py.is_empty (Py.strip s))
  | None => false
  end.

(** [tag.find_all(name, string=lambda text: text and text.strip())]. *)
Definition find_all_with_string (name : string) (root : node) : list node :=
  List.filter (fun n => tag_matches name [] n && has_visible_string n) (descendants root).

(** [tag.find(string=lambda text: isinstance(text, Comment))]: the first
    comment below the tag. *)
Definition find_comment (root : node) : option string :=
  head (flat_map (fun d => match d with Comment s => [s] | _ => [] end)
          (descendants root)).

End Soup.

(** ** A reader for concrete pages *)

(** [HtmlParser.parse] reads the markup the example pages are written in:
    start tags with quoted or bare attribute values, end tags, text and
    closed comments, with the tree-building rules of bs4 over [html.parser]
    (a void element holds nothing, an end tag closes the nearest open
    element of its name and is dropped when there is none, the end of the
    input closes what is open, a string or comment made of ASCII white space
    only becomes one newline or one space outside [pre] and [textarea]).
    Character references, declarations and marked sections ([<!...>],
    [<![...]>]), [script] and [style] contents, and ">" inside an attribute
    value are outside this fragment; on the fragment [html.parser] rejects
    nothing, so the reader always answers with a tree. The extractors and
    their theorems take the parser as a parameter; this one only serves to
    run them. *)
Module HtmlParser.
Import Soup.

Inductive token : Type :=
  | TStart (name : string) (attrs : list (string * string)) (closed : bool)
  | TEnd (name : string)
  | TData (s : string)
  | TComment (s : string).

Definition lower_char (c : ascii) : ascii :=
  let n := Py.code c in
  if ((65 <=? n) && (n <=? 90))%nat then ascii_of_nat (n + 32) else c.

Fixpoint lower (s : string) : string :=
  match s with
  | EmptyString => EmptyString
  | String c s' => String (lower_char c) (lower s')
  end.

Definition is_letter (c : ascii) : bool :=
  let n := Py.code (lower_char c) in ((97 <=? n) && (n <=? 122))%nat.

(** [find_sub pat s]: the text before and after the first [pat] in [s]. *)
Fixpoint find_sub (pat s : string) : option (string * string) :=
  if Py.starts_with pat s then Some (EmptyString, Py.drop (String.length pat) s)
  else
    match s with
    | EmptyString => None
    | String c s' =>
        match find_sub pat s' with
        | Some (b, a) => Some (String c b, a)
        | None => None
        end
    end.

(** [span p s]: the longest prefix of [s] whose characters satisfy [p], and
    the rest. *)
Fixpoint span (p : ascii -> bool) (s : string) : string * string :=
  match s with
  | EmptyString => (EmptyString, EmptyString)
  | String c s' =>
      if p c then let '(a, b) := span p s' in (String c a, b)
      else (EmptyString, s)
  end.

Definition is_quote (c : ascii) : bool :=
  (Py.code c =? 34)%nat || (Py.code c =? 39)%nat.

Definition name_char (c : ascii) : bool :=
  negb (Py.isspace c) && negb (Ascii.eqb c "="%char) && negb (Ascii.eqb c "/"%char).

(** The attributes of a start tag; a later duplicate replaces the value
    of an earlier one, a bare attribute has the empty value. *)
Definition set_attr (k v : string) (attrs : list (string * string)) : list (string * string) :=
  if existsb (fun kv => String.eqb (fst kv) k) attrs
  then map (fun kv => if String.eqb (fst kv) k then (k, v) else kv) attrs
  else attrs ++ [(k, v)].

Fixpoint read_attrs (fuel : nat) (s : string) (acc : list (string * string)) : list (string * string) * bool :=
  match fuel with
  | O => (acc, false)
  | S f =>
      match Py.lstrip s with
      | EmptyString => (acc, false)
      | String "/"%char r =>
          if Py.is_empty (Py.lstrip r) then (acc, true) else read_attrs f r acc
      | t =>
          let '(k, r) := span name_char t in
          match Py.lstrip r with
          | String "="%char r1 =>
              match Py.lstrip r1 with
              | String q r2 =>
                  if is_quote q then
                    let '(v, r3) := span (fun c => negb (Ascii.eqb c q)) r2 in
                    read_attrs f (Py.drop 1 r3) (set_attr (lower k) v acc)
                  else
                    let '(v, r3) := span (fun c => negb (Py.isspace c)) (String q r2) in
                    read_attrs f r3 (set_attr (lower k) v acc)
              | EmptyString => (set_attr (lower k) EmptyString acc, false)
              end
          | r1 =>
              if Py.is_empty k then (acc, false)
              else read_attrs f r1 (set_attr (lower k) EmptyString acc)
          end
      end
  end.

Definition start_token (inner : string) : token :=
  let '(nm, r) := span name_char inner in
  let '(attrs, closed) := read_attrs (S (String.length r)) r [] in
  TStart (lower nm) attrs closed.

Fixpoint tokenize (fuel : nat) (s : string) : list token :=
  match fuel with
  | O => []
  | S f =>
      match s with
      | EmptyString => []
      | String c r =>
          if Py.starts_with "<!--" s then
            match find_sub "-->" (Py.drop 4 s) with
            | Some (body, rest) => TComment body :: tokenize f rest
            | None => [TData s]
            end
          else if Py.starts_with "</" s then
            match find_sub ">" (Py.drop 2 s) with
            | Some (nm, rest) => TEnd (lower (Py.strip nm)) :: tokenize f rest
            | None => [TData s]
            end
          else if Ascii.eqb c "<"%char
                  && match r with String d _ => is_letter d | EmptyString => false end then
            match find_sub ">" r with
            | Some (inner, rest) => start_token inner :: tokenize f rest
            | None => [TData s]
            end
          else
            let '(d, rest) := span (fun x => negb (Ascii.eqb x "<"%char)) r in
            TData (String c d) :: tokenize f rest
      end
  end.

Definition void_elements : list string :=
  ["area"; "base"; "br"; "col"; "embed"; "hr"; "img"; "input"; "link";
   "meta"; "param"; "source"; "track"; "wbr"].

(** An open element: its name, attributes and the contents read so far,
    last first. *)
Definition frame : Type := string * list (string * string) * list node.

Definition add_child (n : node) (stack : list frame) (top : list node) : list frame * list node :=
  match stack with
  | (nm, a, cs) :: rest => ((nm, a, n :: cs) :: rest, top)
  | [] => ([], n :: top)
  end.

Definition with_pending (pending : option node) (cs : list node) : list node :=
  match pending with Some t => t :: cs | None => cs end.

(** Close open elements, innermost first, up to and including the nearest
    one named [name] ([None]: all of them). *)
Fixpoint close_until (name : option string) (pending : option node)
    (stack : list frame) (top : list node) : list frame * list node :=
  match stack with
  | [] => ([], with_pending pending top)
  | (nm, a, cs) :: rest =>
      let t := Tag nm a (rev (with_pending pending cs)) in
      if match name with Some x => String.eqb nm x | None => false end
      then add_child t rest top
      else close_until name (Some t) rest top
  end.

(** Text that arrives in pieces is one string of the tree. *)
Fixpoint join_data (toks : list token) : list token :=
  match toks with
  | [] => []
  | TData a :: rest =>
      match join_data rest with
      | TData b :: rest' => TData (a +:+ b) :: rest'
      | joined => TData a :: joined
      end
  | tok :: rest => tok :: join_data rest
  end.

(** bs4's [ASCII_SPACES]: space, newline, tab, form feed, carriage
    return. *)
Definition ascii_space (c : ascii) : bool :=
  existsb (Nat.eqb (Py.code c)) [32; 10; 9; 12; 13]%nat.

Definition newline : ascii := ascii_of_nat 10.

(** What [endData] keeps of a string outside [pre] and [textarea]. *)
Definition collapse (s : string) : string :=
  let cs := String.list_ascii_of_string s in
  if forallb ascii_space cs then
    if existsb (Ascii.eqb newline) cs then String newline EmptyString else " "
  else s.

Definition preserves_whitespace (stack : list frame) : bool :=
  existsb (fun fr => existsb (String.eqb (fst (fst fr))) ["pre"; "textarea"]) stack.

Definition kept (stack : list frame) (s : string) : string :=
  if preserves_whitespace stack then s else collapse s.

Fixpoint build (toks : list token) (stack : list frame) (top : list node) : list node :=
  match toks with
  | [] => rev (snd (close_until None None stack top))
  | TData s :: toks' =>
      let '(st, tp) := add_child (NavigableString (kept stack s)) stack top in
      build toks' st tp
  | TComment s :: toks' =>
      let '(st, tp) := add_child (Comment (kept stack s)) stack top in build toks' st tp
  | TStart nm a closed :: toks' =>
      if closed || existsb (String.eqb nm) void_elements then
        let '(st, tp) := add_child (Tag nm a []) stack top in build toks' st tp
      else build toks' ((nm, a, []) :: stack) top
  | TEnd nm :: toks' =>
      if existsb (fun fr => String.eqb (fst (fst fr)) nm) stack then
        let '(st, tp) := close_until (Some nm) None stack top in build toks' st tp
      else build toks' stack top
  end.

Definition read (markup : string) : list node :=
  build (join_data (tokenize (String.length markup) markup)) [] [].

Definition parse (markup : string) : result (list node) := Ok (read markup).

End HtmlParser.

(** ** The fetcher: [make_request] under its three decorators *)

(** [make_request] is [requests.get(url, timeout=3.0).text] wrapped, from
    the inside out, by ratelimit's [limits(calls=1, period=3.00)], ratelimit's
    [sleep_and_retry] and tenacity's [retry(stop=stop_never,
    wait=wait_fixed(3), retry=retry_if_exception_type(...))]. The clock is
    part of the state: time is a rational number of seconds, a sleep moves
    it forward by its length and a request by its latency. *)
Module Fetcher.

Local Open Scope Q_scope.

#[global] Instance exn_eq_dec : EqDecision exn.
Proof. solve_decision. Defined.

(** [isinstance(e, cls)]: in [requests.exceptions], [ConnectionError] and
    [Timeout] derive from [RequestException]. *)
Definition isinstance (e cls : exn) : bool :=
  bool_decide (e = cls)
  || match cls, e with
     | RequestException, ConnectionError => true
     | RequestException, Timeout => true
     | _, _ => false
     end.

(** *** tenacity *)

Record retry_policy : Type := {
  stop : nat -> bool;
  wait : nat -> Q;
  retry : exn -> bool
}.

Definition stop_never : nat -> bool := fun _ => false.
Definition wait_fixed (seconds : Q) : nat -> Q := fun _ => seconds.
Definition retry_if_exception_type (types : list exn) : exn -> bool :=
  fun e => existsb (isinstance e) types.

(** The arguments of [@retry] on [make_request]. *)
Definition make_request_policy : retry_policy := {|
  stop := stop_never;
  wait := wait_fixed 3;
  retry := retry_if_exception_type [RequestException; ConnectionError]
|}.

(** tenacity raises [RetryError] when [stop] says so. *)
Definition RetryError : exn := OtherException "RetryError".

(** *** ratelimit *)

(** The state of a [RateLimitDecorator]: [last_reset] is the clock when
    the current period began, [num_calls] the calls counted in it. *)
Record limiter : Type := {
  clamped_calls : nat;
  period : Q;
  last_reset : Q;
  num_calls : nat
}.

(** [limits(calls=1, period=3.00)], created when the clock shows [t]. *)
Definition limits_1_per_3 (t : Q) : limiter :=
  {| clamped_calls := 1; period := 3; last_reset := t; num_calls := 0 |}.

Inductive event : Type :=
  | Request (time : Q) (url : string)
  | Throttle (seconds : Q)
  | Wait (seconds : Q).

Record world : Type := {
  now : Q;
  lim : limiter;
  issued : nat;
  events : list event
}.

Definition sleep (ev : Q -> event) (seconds : Q) (w : world) : world :=
  {| now := now w + seconds; lim := lim w; issued := issued w;
     events := events w ++ [ev seconds] |}.

Definition set_limiter (l : limiter) (w : world) : world :=
  {| now := now w; lim := l; issued := issued w; events := events w |}.

Section Network.

(** The network: what the [k]-th request of the process meets (the page
    text or an exception) and how long it takes. *)
Variable respond : nat -> string -> result string.
Variable latency : nat -> Q.

(** [requests.get(request_url, timeout=3.0).text] *)
Definition requests_get (request_url : string) (w : world) : result string * world :=
  (respond (issued w) request_url,
   {| now := now w + latency (issued w); lim := lim w; issued := S (issued w);
      events := events w ++ [Request (now w) request_url] |}).

(** The wrapper of [limits]: [inl r] is [RateLimitException] with
    [period_remaining = r]. *)
Definition limited (request_url : string) (w : world) : (Q + result string) * world :=
  let l := lim w in
  let period_remaining := period l - (now w - last_reset l) in
  let l :=
    if Qle_bool period_remaining 0
    then {| clamped_calls := clamped_calls l; period := period l;
            last_reset := now w; num_calls := 0 |}
    else l in
  let l := {| clamped_calls := clamped_calls l; period := period l;
              last_reset := last_reset l; num_calls := S (num_calls l) |} in
  if (clamped_calls l <? num_calls l)%nat
  then (inl period_remaining, set_limiter l w)
  else
    let '(r, w') := requests_get request_url (set_limiter l w) in (inr r, w').

(** The wrapper of [sleep_and_retry]: [while True], bounded by [fuel]. *)
Fixpoint sleep_and_retry (fuel : nat) (request_url : string) (w : world)
    : option (result string * world) :=
  match fuel with
  | O => None
  | S fuel' =>
      match limited request_url w with
      | (inl period_remaining, w') =>
          sleep_and_retry fuel' request_url (sleep Throttle period_remaining w')
      | (inr r, w') => Some (r, w')
      end
  end.

(** The loop of tenacity's [retry]; [attempt_number] starts at 1. *)
Fixpoint retrying (policy : retry_policy) (fuel : nat) (attempt_number : nat)
    (request_url : string) (w : world) : option (result string * world) :=
  match fuel with
  | O => None
  | S fuel' =>
      match sleep_and_retry (S fuel) request_url w with
      | None => None
      | Some (Ok text, w') => Some (Ok text, w')
      | Some (Raise e, w') =>
          if retry policy e then
            if stop policy attempt_number then Some (Raise RetryError, w')
            else retrying policy fuel' (S attempt_number) request_url
                   (sleep Wait (wait policy attempt_number) w')
          else Some (Raise e, w')
      end
  end.

Definition make_request (fuel : nat) (request_url : string) (w : world)
    : option (result string * world) :=
  retrying make_request_policy fuel 1 request_url w.

End Network.

(** The times at which requests were issued, oldest first. *)
Definition request_times (evs : list event) : list Q :=
  flat_map (fun ev => match ev with Request t _ => [t] | _ => [] end) evs.

Definition waits (evs : list event) : list Q :=
  flat_map (fun ev => match ev with Wait d => [d] | _ => [] end) evs.

(** A process whose first call comes two seconds after the module was
    imported, and two networks: one that always answers, one whose first
    two answers are connection errors. Every answer takes half a second. *)
Definition first_call : world :=
  {| now := 2; lim := limits_1_per_3 0; issued := 0; events := [] |}.
Definition always_answers : nat -> string -> result string :=
  fun _ _ => Ok "page".
Definition two_failures : nat -> string -> result string :=
  fun k _ => if (k <? 2)%nat then Raise ConnectionError else Ok "page".
Definition half_a_second : nat -> Q := fun _ => 1 # 2.

(** The same process when its first request has returned: the limiter
    has counted one call in the period that began at the import. *)
Definition second_call : world :=
  {| now := 5 # 2;
     lim := {| clamped_calls := 1; period := 3; last_reset := 0; num_calls := 1 |};
     issued := 1;
     events := [Request 2 "u"] |}.

End Fetcher.

(** ** Records the extractors return *)

(** The values a box-score dictionary holds: the date, strings (team codes,
    cell texts, the playoff game digit) and the integers 0 and 1. *)
Inductive box_value : Type :=
  | BDate (d : Py.datetime)
  | BStr (s : string)
  | BInt (n : Z).

(** The values a roster dictionary holds; [F] is the type of Python floats. *)
Inductive roster_value (F : Type) : Type :=
  | RStr (s : string)
  | RInt (n : Z)
  | RFloat (x : F).

Arguments RStr {F} s.
Arguments RInt {F} n.
Arguments RFloat {F} x.

(** The dictionary [get_match_data] builds has four fixed keys. *)
Record schedule_entry : Type := mk_entry {
  match_link : string;
  match_date : string;
  visit_team : string;
  home_team : string
}.

Definition BASE_URL : string := "https://www.basketball-reference.com".

(** ** Pages to run the extractors on *)

Module Pages.

(** A box-score page, for the game of 24 October 2023 at Denver, with the
    given totals; [visit_fg3_pct] is the visiting team's three-point
    percentage cell, empty when the team attempted none. *)
Definition footer (pts fg3_pct : string) : string :=
  "<tfoot><tr><th data-stat='player'>Team Totals</th>" +:+
  "<td data-stat='mp'>240</td><td data-stat='fg'>41</td>" +:+
  "<td data-stat='fg3_pct'>" +:+ fg3_pct +:+ "</td>" +:+
  "<td data-stat='pts'>" +:+ pts +:+ "</td>" +:+
  "<td data-stat='plus_minus'></td></tr></tfoot>".

Definition box_page (visit_pts visit_fg3_pct home_pts : string) : string :=
  "<html><body><h1>Lakers at Nuggets Box Score, October 24, 2023</h1>" +:+
  "<div class='scorebox'>" +:+
  "<div><strong><a href='/teams/LAL/2024.html'>Los Angeles Lakers</a></strong></div>" +:+
  "<div><strong><a href='/teams/DEN/2024.html'>Denver Nuggets</a></strong></div>" +:+
  "</div>" +:+
  "<table id='box-LAL-game-basic'>" +:+
  "<tbody><tr><td data-stat='pts'>21</td></tr></tbody>" +:+
  footer visit_pts visit_fg3_pct +:+ "</table>" +:+
  "<table id='box-DEN-game-basic'>" +:+ footer home_pts ".412" +:+ "</table>" +:+
  "</body></html>".

Definition box_url : string :=
  "https://www.basketball-reference.com/boxscores/202310240DEN.html".

(** The same address without the "www." of the host, and with scheme
    and host in upper case: the same page for a browser, another string
    for the extractor. *)
Definition short_box_url : string :=
  "https://basketball-reference.com/boxscores/202310240DEN.html".
Definition upper_case_box_url : string :=
  "HTTPS://WWW.BASKETBALL-REFERENCE.COM/boxscores/202310240DEN.html".

(** A playoff game: the page carries the series span, and its heading
    names the game in the round. *)
Definition finals_page : string :=
  "<html><body>" +:+
  "<h1>2023 NBA Finals Game 5: Heat at Nuggets Box Score, June 12, 2023</h1>" +:+
  "<span data-label='All Games in Series'>Series</span>" +:+
  "<div class='scorebox'>" +:+
  "<div><strong><a href='/teams/MIA/2023.html'>Miami Heat</a></strong></div>" +:+
  "<div><strong><a href='/teams/DEN/2023.html'>Denver Nuggets</a></strong></div>" +:+
  "</div>" +:+
  "<table id='box-MIA-game-basic'><tfoot><tr>" +:+
  "<td data-stat='pts'>89</td></tr></tfoot></table>" +:+
  "<table id='box-DEN-game-basic'><tfoot><tr>" +:+
  "<td data-stat='pts'>94</td></tr></tfoot></table>" +:+
  "</body></html>".

Definition finals_url : string :=
  "https://www.basketball-reference.com/boxscores/202306120DEN.html".

Definition finals_data : gmap string box_value :=
  list_to_map
    [("match_date", BDate (Py.mk_datetime 2023 6 12));
     ("visit_team", BStr "MIA"); ("home_team", BStr "DEN");
     ("is_playoff", BInt 1); ("playoff_round", BStr "5");
     ("visit_pts", BStr "89"); ("home_pts", BStr "94");
     ("game_result", BStr "DEN")].

(** A row whose sort keys are too short, and a row without its date
    cell. *)
Definition short_key_row : Soup.node :=
  Soup.Tag "tr" []
    [Soup.Tag "th" [("data-stat", "date_game"); ("csk", "2024")] [];
     Soup.Tag "td" [("data-stat", "visitor_team_name"); ("csk", "LAL")] [];
     Soup.Tag "td" [("data-stat", "box_score_text")] []].
Definition dateless_row : Soup.node :=
  Soup.Tag "tr" []
    [Soup.Tag "td" [("data-stat", "visitor_team_name"); ("csk", "LAL.202310240DEN")] [];
     Soup.Tag "td" [("data-stat", "box_score_text")] []].

(** Two footers of one visible cell each, and a roster row of two
    cells. *)
Definition visit_cells : list Soup.node :=
  [Soup.Tag "td" [("data-stat", "pts")] [Soup.NavigableString "107"]].
Definition home_cells : list Soup.node :=
  [Soup.Tag "td" [("data-stat", "pts")] [Soup.NavigableString "119"]].
Definition copied_cells : gmap string box_value :=
  list_to_map [("visit_pts", BStr "107"); ("home_pts", BStr "119")].
Definition small_row : Soup.node :=
  Soup.Tag "tr" []
    [Soup.Tag "td" [("data-stat", "pos")] [Soup.NavigableString "C"];
     Soup.Tag "td" [("data-stat", "weight")] [Soup.NavigableString "284"]].

(** Team pages: a roster of two players, and the four shapes of the
    injuries block. *)
Definition roster_table : string :=
  "<div id='div_roster'><table><thead><tr><th>No.</th></tr></thead><tbody>" +:+
  "<tr><th data-stat='number'>15</th>" +:+
  "<td data-stat='player' csk='Jokic,Nikola'><a href='/players/j/jokicni01.html'>Nikola Jokic</a></td>" +:+
  "<td data-stat='pos'>C</td><td data-stat='height' csk='83.0'>6-11</td>" +:+
  "<td data-stat='weight'>284</td>" +:+
  "<td data-stat='flag'><span>rs</span></td>" +:+
  "<td data-stat='years_experience' csk='8'>8</td></tr>" +:+
  "<tr><th data-stat='number'>0</th>" +:+
  "<td data-stat='player' csk='Braun,Christian'><a href='/players/b/braunch01.html'>Christian Braun</a></td>" +:+
  "<td data-stat='pos'>SG</td><td data-stat='height' csk='78.0'>6-6</td>" +:+
  "<td data-stat='weight'>220</td>" +:+
  "<td data-stat='flag'><span>us</span></td>" +:+
  "<td data-stat='years_experience' csk='1'>1</td></tr>" +:+
  "</tbody></table></div>".

(** A roster of one player whose weight is not on record: the cell is
    there and empty. *)
Definition unweighed_player_page : string :=
  "<html><body><div id='div_roster'><table><tbody>" +:+
  "<tr><th data-stat='number'>10</th>" +:+
  "<td data-stat='player' csk='Doe,John'><a href='/players/d/doejo01.html'>John Doe</a></td>" +:+
  "<td data-stat='pos'>G</td><td data-stat='height' csk='74.0'>6-2</td>" +:+
  "<td data-stat='weight'></td>" +:+
  "<td data-stat='years_experience' csk='0'>R</td></tr>" +:+
  "</tbody></table></div></body></html>".

Definition injuries_table : string :=
  "<table id='injuries'><tbody>" +:+
  "<tr><th data-stat='player' csk='Murray,Jamal'>Jamal Murray</th><td>Out</td></tr>" +:+
  "<tr><th data-stat='player' csk='Cancar,Vlatko'>Vlatko Cancar</th><td>Out</td></tr>" +:+
  "</tbody></table>".

Definition team_page (injuries_block : string) : string :=
  "<html><body>" +:+ roster_table +:+ injuries_block +:+ "</body></html>".

Definition injuries_in_comment : string :=
  "<div id='all_injuries'><!--" +:+ injuries_table +:+ "--></div>".
Definition injuries_direct : string :=
  "<div id='all_injuries'>" +:+ injuries_table +:+ "</div>".
Definition injuries_comment_without_table : string :=
  "<div id='all_injuries'><!-- <p>No current injuries</p> --></div>".
Definition injuries_absent : string := "".

(** A season of three months; the last row of April is not linked yet and
    the playoffs start in it. *)
Definition filter_div : string :=
  "<div class='filter'>" +:+
  "<div><a href='/leagues/NBA_2024_games-october.html'>October</a></div>" +:+
  "<div><a href='/leagues/NBA_2024_games-november.html'>November</a></div>" +:+
  "<div><a href='/leagues/NBA_2024_games-april.html'>April</a></div>" +:+
  "</div>".

Definition game_row (date_key names_key box_cell : string) : string :=
  "<tr><th data-stat='date_game' csk='" +:+ date_key +:+ "'>a date</th>" +:+
  "<td data-stat='visitor_team_name' csk='" +:+ names_key +:+ "'>visitor</td>" +:+
  "<td data-stat='home_team_name'>home</td>" +:+
  "<td data-stat='box_score_text'>" +:+ box_cell +:+ "</td></tr>".

Definition month_page (rows : string) : string :=
  "<html><body>" +:+ filter_div +:+
  "<table id='schedule'><thead><tr><th>Date</th></tr></thead><tbody>" +:+ rows +:+
  "</tbody></table></body></html>".

Definition october : string :=
  month_page
    (game_row "202310240DEN" "LAL.202310240DEN" "<a href='/boxscores/202310240DEN.html'>Box Score</a>"
     +:+ game_row "202310240GSW" "PHO.202310240GSW" "<a href='/boxscores/202310240GSW.html'>Box Score</a>").
Definition november : string :=
  month_page
    (game_row "202311010NYK" "CLE.202311010NYK" "<a href='/boxscores/202311010NYK.html'>Box Score</a>").
Definition april : string :=
  month_page
    (game_row "202404140DEN" "MEM.202404140DEN" "<a href='/boxscores/202404140DEN.html'>Box Score</a>"
     +:+ "<tr class='thead'><th colspan='11'>Playoffs</th></tr>"
     +:+ game_row "202404200DEN" "LAL.202404200DEN" "").

(** The site: which text [make_request] returns for which address. *)
Definition site (injuries_block : string) (box : string) (request_url : string) : result string :=
  if String.eqb request_url (BASE_URL +:+ "/leagues/NBA_2024_games.html") then Ok october
  else if String.eqb request_url (BASE_URL +:+ "/leagues/NBA_2024_games-october.html") then Ok october
  else if String.eqb request_url (BASE_URL +:+ "/leagues/NBA_2024_games-november.html") then Ok november
  else if String.eqb request_url (BASE_URL +:+ "/leagues/NBA_2024_games-april.html") then Ok april
  else if String.eqb request_url (BASE_URL +:+ "/teams/DEN/2024.html") then Ok (team_page injuries_block)
  else Ok box.

(** What the extractors return on these pages. *)
Definition box_data : gmap string box_value :=
  list_to_map
    [("match_date", BDate (Py.mk_datetime 2023 10 24));
     ("visit_team", BStr "LAL"); ("home_team", BStr "DEN");
     ("is_playoff", BInt 0); ("playoff_round", BInt 0);
     ("visit_mp", BStr "240"); ("home_mp", BStr "240");
     ("visit_fg", BStr "41"); ("home_fg", BStr "41");
     ("visit_fg3_pct", BStr ".333"); ("home_fg3_pct", BStr ".412");
     ("visit_pts", BStr "107"); ("home_pts", BStr "119");
     ("game_result", BStr "DEN")].

Definition month_links : list string :=
  [BASE_URL +:+ "/leagues/NBA_2024_games-october.html";
   BASE_URL +:+ "/leagues/NBA_2024_games-november.html";
   BASE_URL +:+ "/leagues/NBA_2024_games-april.html"].

Definition october_entries : list schedule_entry :=
  [mk_entry (BASE_URL +:+ "/boxscores/202310240DEN.html") "20231024" "LAL" "DEN";
   mk_entry (BASE_URL +:+ "/boxscores/202310240GSW.html") "20231024" "PHO" "GSW"].
Definition november_entries : list schedule_entry :=
  [mk_entry (BASE_URL +:+ "/boxscores/202311010NYK.html") "20231101" "CLE" "NYK"].
Definition april_entries : list schedule_entry :=
  [mk_entry (BASE_URL +:+ "/boxscores/202404140DEN.html") "20240414" "MEM" "DEN";
   mk_entry (BASE_URL +:+ "/boxscores/20240420DEN0.html") "20240420" "LAL" "DEN"].

(** Two rows as trees: one with its box-score anchor, one without. *)
Definition cell (name stat : string) (more : list (string * string))
    (contents : list Soup.node) : Soup.node :=
  Soup.Tag name (("data-stat", stat) :: more) contents.

Definition row_of (date_key names_key : string) (box : list Soup.node) : Soup.node :=
  Soup.Tag "tr" []
    [cell "th" "date_game" [("csk", date_key)] [Soup.NavigableString "a date"];
     cell "td" "visitor_team_name" [("csk", names_key)] [Soup.NavigableString "visitor"];
     cell "td" "home_team_name" [] [Soup.NavigableString "home"];
     cell "td" "box_score_text" [] box].

Definition box_anchor : Soup.node :=
  Soup.Tag "a" [("href", "/boxscores/202310240DEN.html")] [Soup.NavigableString "Box Score"].
Definition linked_row : Soup.node :=
  row_of "202310240DEN" "LAL.202310240DEN" [box_anchor].
Definition unlinked_row : Soup.node :=
  row_of "202404200DEN" "LAL.202404200DEN" [].

(** A stand-in for [float] on plain decimal numerals: the exact value of
    the numeral; [None] for any other text. *)
Definition decimal (s : string) : option Q :=
  match Py.split "."%char (Py.strip s) with
  | [whole] => (fun n => inject_Z n) <$> Py.int_digits 0 false whole
  | [whole; frac] =>
      match Py.int_digits 0 false (whole +:+ frac) with
      | Some n =>
          if forallb Py.isdigit (String.list_ascii_of_string frac) && negb (Py.is_empty frac)
             && negb (Py.is_empty whole)
          then Some (Qmake n (Pos.pow 10 (Pos.of_nat (String.length frac))))
          else None
      | None => None
      end
  | _ => None
  end.

Definition roster_data : list (gmap string (roster_value Q)) :=
  [list_to_map
     [("player", RStr "Jokic,Nikola"); ("url", RStr "/players/j/jokicni01.html");
      ("playerid", RStr "jokicni01"); ("pos", RStr "C");
      ("height", RFloat (830 # 10)); ("weight", RInt 284); ("flag", RStr "rs");
      ("years_experience", RFloat (8 # 1))];
   list_to_map
     [("player", RStr "Braun,Christian"); ("url", RStr "/players/b/braunch01.html");
      ("playerid", RStr "braunch01"); ("pos", RStr "SG");
      ("height", RFloat (780 # 10)); ("weight", RInt 220); ("flag", RStr "us");
      ("years_experience", RFloat (1 # 1))]].

End Pages.

(** ** Fetching inside the extractors *)

(** An extractor runs over the list of URLs it has passed to [make_request]
    so far, oldest first; the list survives an exception. *)
Definition M (A : Type) : Type := list string -> result A * list string.

#[global] Instance M_ret : MRet M := fun A a log => (Ok a, log).
#[global] Instance M_bind : MBind M := fun A B k m log =>
  match m log with
  | (Ok a, log') => k a log'
  | (Raise e, log') => (Raise e, log')
  end.

Definition lift {A : Type} (r : result A) : M A := fun log => (r, log).

(** The extractors, over the page parser (the tree of a markup, or the
    exception with which the parser rejects it), the outcome of
    [make_request] per URL (the page text, or the exception that leaves the
    retry loop) and Python's [float]. *)
Section Extractors.

Variable html_parser : string -> result (list Soup.node).
Variable web : string -> result string.
Variable F : Type.
Variable float : string -> option F.

Import Soup.

(** [BeautifulSoup(markup, 'html.parser')] *)
Definition BeautifulSoup (markup : string) : result node :=
  document <$> html_parser markup.

Definition make_request (request_url : string) : M string :=
  fun log => (web request_url, log ++ [request_url]).

(** *** Box score *)

(** [teams[i].find('a').get('href').split('/')[2]] *)
Definition team_code (teams : list node) (i : nat) : result string :=
  strong ← or_raise (teams !! i) IndexError;
  a ← or_raise (find "a" [] strong) AttributeError;
  href ← or_raise (get "href" a) AttributeError;
  or_raise (Py.split "/"%char href !! 2%nat) IndexError.

(** [soup.find('table', id='box-' + team + '-game-basic').find('tfoot')
      .find_all('td', string=lambda text: text and text.strip())] *)
Definition footer_cells (soup : node) (team : string) : result (list node) :=
  table ← or_raise (find "table" [("id", AttrIs ("box-" +:+ team +:+ "-game-basic"))] soup) AttributeError;
  tfoot ← or_raise (find "tfoot" [] table) AttributeError;
  Ok (find_all_with_string "td" tfoot).

(** The loop over [zip(visit_stats, home_stats)]. *)
Fixpoint copy_stats (cells : list (node * node)) (data : gmap string box_value)
    : result (gmap string box_value) :=
  match cells with
  | [] => Ok data
  | (v_cell, h_cell) :: rest =>
      v_stat ← getitem "data-stat" v_cell;
      let data := <["visit_" +:+ v_stat := BStr (text v_cell)]> data in
      h_stat ← getitem "data-stat" h_cell;
      let data := <["home_" +:+ h_stat := BStr (text h_cell)]> data in
      copy_stats rest data
  end.

(** [data[key]] *)
Definition item (data : gmap string box_value) (key : string) : result box_value :=
  or_raise (data !! key) KeyError.

(** [int(v)] on a dictionary value. *)
Definition int_of (v : box_value) : result Z :=
  match v with
  | BStr s => or_raise (Py.int s) ValueError
  | BInt n => Ok n
  | BDate _ => Raise TypeError
  end.

Definition boxscore_of (request_url : string) (soup : node) : result (gmap string box_value) :=
  scorebox ← or_raise (find "div" [("class", AttrIs "scorebox")] soup) AttributeError;
  let teams := find_all "strong" [] scorebox in
  date ← or_raise (Py.strptime_Ymd (Py.slice 47 55 request_url)) ValueError;
  visit ← team_code teams 0;
  home ← team_code teams 1;
  let is_playoff :=
    match find "span" [("data-label", AttrIs "All Games in Series")] soup with
    | Some _ => 1
    | None => 0
    end in
  let data : gmap string box_value :=
    <["is_playoff" := BInt is_playoff]>
      (<["home_team" := BStr home]>
         (<["visit_team" := BStr visit]>
            (<["match_date" := BDate date]> ∅))) in
  playoff_round ←
    (if is_playoff =? 1 then
       h1 ← or_raise (find "h1" [] soup) AttributeError;
       digit ← or_raise (Py.search_game (text h1)) AttributeError;
       Ok (BStr digit)
     else Ok (BInt 0));
  let data := <["playoff_round" := playoff_round]> data in
  visit_stats ← footer_cells soup visit;
  home_stats ← footer_cells soup home;
  data ← copy_stats (zip visit_stats home_stats) data;
  home_pts ← item data "home_pts" ≫= int_of;
  visit_pts ← item data "visit_pts" ≫= int_of;
  game_result ←
    (if home_pts >? visit_pts then item data "home_team" else item data "visit_team");
  Ok (<["game_result" := game_result]> data).

Definition get_boxscore (request_url : string) : M (gmap string box_value) :=
  text ← make_request request_url;
  lift (soup ← BeautifulSoup text;
        boxscore_of request_url soup).

(** *** Roster *)

(** One turn of the loop over the cells of a row: the [match data_stat]
    statement. *)
Definition roster_cell (data : gmap string (roster_value F)) (table_cell : node)
    : result (gmap string (roster_value F)) :=
  data_stat ← getitem "data-stat" table_cell;
  if String.eqb data_stat "weight" then
    weight ← or_raise (Py.int (text table_cell)) ValueError;
    Ok (<["weight" := RInt weight]> data)
  else if String.eqb data_stat "player" then
    player ← getitem "csk" table_cell;
    a ← or_raise (find "a" [] table_cell) AttributeError;
    url ← or_raise (get "href" a) AttributeError;
    file ← or_raise (Py.last_item (Py.split "/"%char url)) IndexError;
    Ok (<["playerid" := RStr (Py.replace ".html" "" file)]>
          (<["url" := RStr url]> (<["player" := RStr player]> data)))
  else if String.eqb data_stat "years_experience" then
    csk ← getitem "csk" table_cell;
    x ← or_raise (float csk) ValueError;
    Ok (<[data_stat := RFloat x]> data)
  else if String.eqb data_stat "flag" then
    span ← or_raise (find "span" [] table_cell) AttributeError;
    Ok (<[data_stat := RStr (text span)]> data)
  else if String.eqb data_stat "height" then
    csk ← getitem "csk" table_cell;
    x ← or_raise (float csk) ValueError;
    Ok (<[data_stat := RFloat x]> data)
  else
    Ok (<[data_stat := RStr (text table_cell)]> data).

Fixpoint roster_cells (table_cells : list node) (data : gmap string (roster_value F))
    : result (gmap string (roster_value F)) :=
  match table_cells with
  | [] => Ok data
  | table_cell :: rest =>
      data ← roster_cell data table_cell;
      roster_cells rest data
  end.

(** The body of the loop over the rows: the dictionary of one row. *)
Definition roster_row (row : node) : result (gmap string (roster_value F)) :=
  roster_cells (find_all "td" [] row) ∅.

(** [soup.find('div', id='div_roster').find('tbody').find_all('tr')] *)
Definition roster_rows (soup : node) : result (list node) :=
  div ← or_raise (find "div" [("id", AttrIs "div_roster")] soup) AttributeError;
  tbody ← or_raise (find "tbody" [] div) AttributeError;
  Ok (find_all "tr" [] tbody).

Definition team_url (team : string) (year : Z) : string :=
  BASE_URL +:+ "/teams/" +:+ team +:+ "/" +:+ Py.str year +:+ ".html".

Definition get_roster (team : string) (year : Z) : M (list (gmap string (roster_value F))) :=
  text ← make_request (team_url team year);
  lift (soup ← BeautifulSoup text;
        table_rows ← roster_rows soup;
        rmapM roster_row table_rows).

(** *** Injury report *)

(** [None] is Python's [None]. *)
Definition injury_report_of (soup : node) : result (option (list string)) :=
  match find "div" [("id", AttrIs "all_injuries")] soup with
  | None => Ok None
  | Some container =>
      match find_comment container with
      | None => Ok None
      | Some comment =>
          if Py.is_empty comment then Ok None
          else
            comment_soup ← BeautifulSoup comment;
            table ← or_raise (find "table" [] comment_soup) AttributeError;
            injured_players ← rmapM (getitem "csk") (find_all "th" [("csk", AttrTrue)] table);
            Ok (Some injured_players)
      end
  end.

Definition get_injury_report (team : string) (year : Z) : M (option (list string)) :=
  text ← make_request (team_url team year);
  lift (soup ← BeautifulSoup text;
        injury_report_of soup).

(** *** Schedule *)

Definition get_match_data (match_row : node) : result schedule_entry :=
  names_cell ← or_raise (find "td" [("data-stat", AttrIs "visitor_team_name")] match_row) AttributeError;
  team_names ← or_raise (get "csk" names_cell) TypeError;
  let visit_team := Py.slice 0 3 team_names in
  let home_team := Py.slice 13 16 team_names in
  date_cell ← or_raise (find "th" [("data-stat", AttrIs "date_game")] match_row) AttributeError;
  date_key ← or_raise (get "csk" date_cell) TypeError;
  let match_date := Py.slice 0 8 date_key in
  box_cell ← or_raise (find "td" [("data-stat", AttrIs "box_score_text")] match_row) AttributeError;
  match_link ←
    match find "a" [] box_cell with
    | Some box_score =>
        href ← or_raise (get "href" box_score) TypeError;
        Ok (BASE_URL +:+ href)
    | None => Ok (BASE_URL +:+ "/boxscores/" +:+ match_date +:+ home_team +:+ "0.html")
    end;
  Ok (mk_entry match_link match_date visit_team home_team).

(** [match.text.strip() != "Playoffs"] *)
Definition not_playoffs_row (match_row : node) : bool :=
  negb (String.eqb (Py.strip (text match_row)) "Playoffs").

Definition _parse_matches_from_text (text : string) : result (list schedule_entry) :=
  soup ← BeautifulSoup text;
  tbody ← or_raise (find "tbody" [] soup) AttributeError;
  let matches := find_all "tr" [] tbody in
  rmapM get_match_data (List.filter not_playoffs_row matches).

Definition _get_month_links (text : string) : result (list string) :=
  soup ← BeautifulSoup text;
  div ← or_raise (find "div" [("class", AttrIs "filter")] soup) AttributeError;
  let months := find_all "a" [] div in
  rmapM (fun a => href ← or_raise (get "href" a) TypeError; Ok (BASE_URL +:+ href)) months.

Definition season_url (year : Z) : string :=
  BASE_URL +:+ "/leagues/NBA_" +:+ Py.str year +:+ "_games.html".

(** The loop of [get_all_schedule] over the month links after the first. *)
Fixpoint all_months (month_urls : list string) (schedule_data : list schedule_entry)
    : M (list schedule_entry) :=
  match month_urls with
  | [] => mret schedule_data
  | month_url :: rest =>
      month_text ← make_request month_url;
      month_matches ← lift (_parse_matches_from_text month_text);
      all_months rest (schedule_data ++ month_matches)
  end.

Definition get_all_schedule (year : Z) : M (list schedule_entry) :=
  text ← make_request (season_url year);
  schedule_data ← lift (_parse_matches_from_text text);
  month_links ← lift (_get_month_links text);
  all_months (tail month_links) schedule_data.

(** [team in (m['home_team'], m['visit_team'])] *)
Definition plays (team : string) (m : schedule_entry) : bool :=
  String.eqb team (home_team m) || String.eqb team (visit_team m).

Fixpoint team_months (team : string) (month_urls : list string)
    (team_schedule : list schedule_entry) : M (list schedule_entry) :=
  match month_urls with
  | [] => mret team_schedule
  | month_url :: rest =>
      month_text ← make_request month_url;
      parsed ← lift (_parse_matches_from_text month_text);
      let month_matches := List.filter (plays team) parsed in
      team_months team rest (team_schedule ++ month_matches)
  end.

Definition get_team_schedule (team : string) (year : Z) : M (list schedule_entry) :=
  text ← make_request (season_url year);
  parsed ← lift (_parse_matches_from_text text);
  let team_schedule := List.filter (plays team) parsed in
  month_links ← lift (_get_month_links text);
  team_months team (tail month_links) team_schedule.

(** *** Statements about the extractors *)

(** What the [match] statement needs of a cell to store its field: the
    [data-stat] attribute, and what the branch of that [data-stat] reads
    (a text that [int] accepts, a [csk] that [float] accepts, the anchor
    with its [href], the [span]). *)
Definition cell_builds (table_cell : node) : bool :=
  match get "data-stat" table_cell with
  | None => false
  | Some data_stat =>
      if String.eqb data_stat "weight" then
        bool_decide (is_Some (Py.int (text table_cell)))
      else if String.eqb data_stat "player" then
        bool_decide (is_Some (get "csk" table_cell))
        && bool_decide (is_Some (find "a" [] table_cell ≫= get "href"))
      else if String.eqb data_stat "years_experience" then
        bool_decide (is_Some (get "csk" table_cell ≫= float))
      else if String.eqb data_stat "flag" then
        bool_decide (is_Some (find "span" [] table_cell))
      else if String.eqb data_stat "height" then
        bool_decide (is_Some (get "csk" table_cell ≫= float))
      else true
  end.

(** The last cell of [cells] whose [data-stat] is [key]: the one whose
    value stays in the dictionary of the row. *)
Fixpoint last_with_stat (key : string) (cells : list node) : option node :=
  match cells with
  | [] => None
  | cell :: rest =>
      match last_with_stat key rest with
      | Some later => Some later
      | None => if bool_decide (get "data-stat" cell = Some key) then Some cell else None
      end
  end.

(** The three coerced fields of the dictionary of a row: [weight] is
    [int] of the text of the weight cell, [height] and [years_experience]
    are [float] of the [csk] of their cells; a row without the cell has
    no such field. *)
Definition coerced_fields (cells : list node) (data : gmap string (roster_value F)) : Prop :=
  data !! "weight"
  = (cell ← last_with_stat "weight" cells; RInt <$> Py.int (text cell))
  /\ data !! "height"
     = (cell ← last_with_stat "height" cells; csk ← get "csk" cell; RFloat <$> float csk)
  /\ data !! "years_experience"
     = (cell ← last_with_stat "years_experience" cells;
        csk ← get "csk" cell; RFloat <$> float csk).

(** The injury report as the specification words it: a table directly in
    the container first, then a table in the markup of a comment, and null
    when neither is there. *)
Definition spec_injury_report_of (soup : node) : result (option (list string)) :=
  let players table := rmapM (getitem "csk") (find_all "th" [("csk", AttrTrue)] table) in
  match find "div" [("id", AttrIs "all_injuries")] soup with
  | None => Ok None
  | Some container =>
      match find "table" [] container with
      | Some table => Some <$> players table
      | None =>
          match find_comment container with
          | None => Ok None
          | Some comment =>
              comment_soup ← BeautifulSoup comment;
              match find "table" [] comment_soup with
              | Some table => Some <$> players table
              | None => Ok None
              end
          end
      end
  end.

(** The rows a schedule page contributes: those of its first [tbody]
    whose stripped text is not "Playoffs", each turned into an entry. *)
Definition page_entries (page : string) (entries : list schedule_entry) : Prop :=
  exists soup tbody,
    BeautifulSoup page = Ok soup
    /\ find "tbody" [] soup = Some tbody
    /\ rmapM get_match_data (List.filter not_playoffs_row (find_all "tr" [] tbody))
       = Ok entries.


(** * Properties *)

(** ** The result monad *)

Lemma bind_Ok {A B : Type} (m : result A) (k : A -> result B) (b : B) :
(m ≫= k) = Ok b -> exists a, m = Ok a /\ k a = Ok b.
Proof. destruct m as [a|e]; simpl; [eauto | discriminate]. Qed.

Lemma or_raise_Ok {A : Type} (o : option A) (e : exn) (a : A) :
or_raise o e = Ok a -> o = Some a.
Proof. destruct o; simpl; congruence. Qed.

Tactic Notation "inv_bind" hyp(H) "as" ident(a) ident(Ha) :=
cbv zeta in H; apply bind_Ok in H as (a & Ha & H).

(** Two dictionaries with the same items are the same dictionary; this is
  how a run on a concrete page is compared with the expected record. *)
Lemma same_items {A : Type} (d d' : gmap string A) :
map_to_list d = map_to_list d' -> d = d'.
Proof.
intros H. rewrite <- (list_to_map_to_list d), <- (list_to_map_to_list d').
by rewrite H.
Qed.

Lemma run_with_items {A : Type} (run : result (gmap string A) * list string)
  (d : gmap string A) (log : list string) :
map_to_list <$> run.1 = Ok (map_to_list d) -> run.2 = log -> run = (Ok d, log).
Proof.
destruct run as [[d'|e] log']; simpl; intros H1 H2; [|discriminate].
inversion H1 as [H]. apply same_items in H. by subst.
Qed.

Lemma same_items_list {A : Type} (ds ds' : list (gmap string A)) :
map map_to_list ds = map map_to_list ds' -> ds = ds'.
Proof.
revert ds'. induction ds as [|d ds IH]; intros [|d' ds'] H; simpl in H;
  try discriminate; [done|].
inversion H as [[H1 H2]]. apply same_items in H1. apply IH in H2. by subst.
Qed.

Lemma run_with_items_list {A : Type} (run : result (list (gmap string A)) * list string)
  (ds : list (gmap string A)) (log : list string) :
map map_to_list <$> run.1 = Ok (map map_to_list ds) -> run.2 = log -> run = (Ok ds, log).
Proof.
destruct run as [[ds'|e] log']; simpl; intros H1 H2; [|discriminate].
inversion H1 as [H]. apply same_items_list in H. by subst.
Qed.

Lemma rmapM_length {A B : Type} (f : A -> result B) (l : list A) (ys : list B) :
rmapM f l = Ok ys -> length ys = length l.
Proof.
revert ys; induction l as [|x l IH]; intros ys H; simpl in H.
- by inversion H.
- destruct (f x) as [y|]; simpl in H; [|discriminate].
  destruct (rmapM f l) as [ys'|]; simpl in H; [|discriminate].
  inversion H; subst; simpl. f_equal. by apply IH.
Qed.

Lemma rmapM_Forall2 {A B : Type} (f : A -> result B) (l : list A) (ys : list B) :
rmapM f l = Ok ys <-> Forall2 (fun x y => f x = Ok y) l ys.
Proof.
revert ys; induction l as [|x l IH]; intros ys; simpl.
- split; [intros H; inversion H; constructor | intros H; by inversion H].
- split.
  + intros H. destruct (f x) as [y|] eqn:Hx; simpl in H; [|discriminate].
    destruct (rmapM f l) as [ys'|] eqn:Hl; simpl in H; [|discriminate].
    inversion H; subst. constructor; [done | by apply IH].
  + intros H. inversion H as [|? y ? ys' Hx Hl]; subst.
    rewrite Hx; simpl. apply IH in Hl. by rewrite Hl.
Qed.

(** *** Box score *)

Lemma get_boxscore_unfold (request_url : string) (log : list string) :
  get_boxscore request_url log =
  (web request_url ≫= (fun text => BeautifulSoup text ≫= boxscore_of request_url),
   log ++ [request_url]).
Proof.
  unfold get_boxscore, mbind, M_bind, make_request, lift.
  by destruct (web request_url).
Qed.

(** The loop only writes keys that start with "visit_" or "home_". *)
Lemma copy_stats_other_key (key : string) (cells : list (node * node))
    (data data' : gmap string box_value) :
  (forall s, key <> "visit_" +:+ s) -> (forall s, key <> "home_" +:+ s) ->
  copy_stats cells data = Ok data' -> data' !! key = data !! key.
Proof.
  intros Hv Hh. revert data.
  induction cells as [|[v h] cells IH]; intros data H; simpl in H.
  - by inversion H.
  - inv_bind H as vs Hvs. inv_bind H as hs Hhs. apply IH in H. rewrite H.
    rewrite !lookup_insert_ne; [done | apply not_eq_sym, Hv | apply not_eq_sym, Hh].
Qed.



Lemma copy_stats_keeps_key (key : string) (cells : list (node * node))
    (data data' : gmap string box_value) :
  is_Some (data !! key) -> copy_stats cells data = Ok data' -> is_Some (data' !! key).
Proof.
  revert data. induction cells as [|[v h] cells IH]; intros data Hk H; simpl in H.
  - by inversion H; subst.
  - inv_bind H as vs Hvs. inv_bind H as hs Hhs. eapply IH; [|exact H].
    rewrite !lookup_insert_is_Some'. auto.
Qed.

Lemma item_insert_ne (data : gmap string box_value) (k key : string) (v : box_value) :
  k <> key -> item (<[k := v]> data) key = item data key.
Proof. intros Hne. unfold item. by rewrite lookup_insert_ne. Qed.

(** What [boxscore_of] returns is the dictionary [data] built before the
    last statement, with [game_result] added to it. *)
Lemma boxscore_of_result (request_url : string) (soup : node) (final : gmap string box_value) :
  boxscore_of request_url soup = Ok final ->
  exists data home_pts visit_pts game_result,
    (item data "home_pts" ≫= int_of) = Ok home_pts
    /\ (item data "visit_pts" ≫= int_of) = Ok visit_pts
    /\ (if home_pts >? visit_pts then item data "home_team" else item data "visit_team")
       = Ok game_result
    /\ final = <["game_result" := game_result]> data
    /\ (exists date, Py.strptime_Ymd (Py.slice 47 55 request_url) = Some date
                     /\ data !! "match_date" = Some (BDate date))
    /\ is_Some (data !! "home_team") /\ is_Some (data !! "visit_team").
Proof.
  intros H. unfold boxscore_of in H.
  inv_bind H as scorebox Hscorebox. inv_bind H as date Hdate.
  inv_bind H as visit Hvisit. inv_bind H as home Hhome.
  inv_bind H as round Hround. inv_bind H as vcells Hvcells.
  inv_bind H as hcells Hhcells. inv_bind H as data Hdata.
  inv_bind H as hp Hhp. inv_bind H as vp Hvp. inv_bind H as g Hg.
  inversion H; subst; clear H.
  exists data, hp, vp, g. repeat split; auto.
  - exists date. split; [by apply or_raise_Ok in Hdate|].
    erewrite copy_stats_other_key; eauto; try (intros s; simpl; discriminate).
    rewrite !lookup_insert_ne by discriminate.
    by rewrite lookup_insert_eq.
  - eapply copy_stats_keeps_key; [|exact Hdata].
    rewrite !lookup_insert_is_Some'. auto 10.
  - eapply copy_stats_keeps_key; [|exact Hdata].
    rewrite !lookup_insert_is_Some'. auto 10.
Qed.

(** C1 (as amended). [game_result] is the dictionary's [home_team] when
    the integer read from [home_pts] is strictly greater than the one read
    from [visit_pts], and its [visit_team] otherwise: the team with
    strictly more points wins, and a tie goes to the visiting team. *)
Theorem game_result_by_points (request_url : string) (log log' : list string)
    (data : gmap string box_value) :
  get_boxscore request_url log = (Ok data, log') ->
  exists home visit home_pts visit_pts,
    data !! "home_team" = Some home
    /\ data !! "visit_team" = Some visit
    /\ (item data "home_pts" ≫= int_of) = Ok home_pts
    /\ (item data "visit_pts" ≫= int_of) = Ok visit_pts
    /\ data !! "game_result" = Some (if home_pts >? visit_pts then home else visit)
    /\ (visit_pts < home_pts -> data !! "game_result" = Some home)
    /\ (home_pts <= visit_pts -> data !! "game_result" = Some visit).
Proof.
  rewrite get_boxscore_unfold. intros H. inversion H as [[Hres Hlog]]; clear H.
  inv_bind Hres as text Htext. inv_bind Hres as soup Hsoup.
  apply boxscore_of_result in Hres
    as (d & hp & vp & g & Hhp & Hvp & Hg & -> & _ & [home Hh] & [visit Hv]).
  assert (g = if hp >? vp then home else visit) as ->.
  { unfold item in Hg. rewrite Hh, Hv in Hg.
    destruct (hp >? vp); simpl in Hg; congruence. }
  exists home, visit, hp, vp.
  rewrite !item_insert_ne by discriminate.
  rewrite !lookup_insert_ne by discriminate. rewrite lookup_insert_eq.
  repeat split; auto.
  - intros Hlt. destruct (hp >? vp) eqn:E; [done | lia].
  - intros Hle. destruct (hp >? vp) eqn:E; [lia | done].
Qed.

Lemma substring_0_app (a b : string) :
  String.substring 0 (String.length a) (a +:+ b) = a.
Proof. induction a as [|c a IH]; simpl; [by destruct b | by rewrite IH]. Qed.

(** A key that is no footer key goes through the footer loop
    untouched. *)
Lemma copy_stats_insert (key : string) (v : box_value) (cells : list (node * node))
    (data : gmap string box_value) :
  (forall s, key <> "visit_" +:+ s) -> (forall s, key <> "home_" +:+ s) ->
  copy_stats cells (<[key := v]> data)
  = (fun d => <[key := v]> d) <$> copy_stats cells data.
Proof.
  intros Hv Hh. revert data.
  induction cells as [|[v_cell h_cell] cells IH]; intros data; simpl; [done|].
  destruct (getitem "data-stat" v_cell) as [vs|e]; simpl; [|done].
  destruct (getitem "data-stat" h_cell) as [hs|e]; simpl; [|done].
  rewrite <- IH. f_equal.
  rewrite (insert_insert_ne _ ("visit_" +:+ vs) key) by apply not_eq_sym, Hv.
  by rewrite (insert_insert_ne _ ("home_" +:+ hs) key) by apply not_eq_sym, Hh.
Qed.

(** The dictionary before the footer loop, as a function of the date. *)
Lemma first_fields_insert (date other_date : Py.datetime)
    (visit home round playoff : box_value) :
  (<["playoff_round" := round]>
     (<["is_playoff" := playoff]>
        (<["home_team" := home]>
           (<["visit_team" := visit]>
              (<["match_date" := BDate other_date]> ∅)))) : gmap string box_value)
  = <["match_date" := BDate other_date]>
      (<["playoff_round" := round]>
         (<["is_playoff" := playoff]>
            (<["home_team" := home]>
               (<["visit_team" := visit]>
                  (<["match_date" := BDate date]> ∅))))).
Proof.
  rewrite (insert_insert_ne _ "match_date" "playoff_round") by discriminate.
  rewrite (insert_insert_ne _ "match_date" "is_playoff") by discriminate.
  rewrite (insert_insert_ne _ "match_date" "home_team") by discriminate.
  rewrite (insert_insert_ne _ "match_date" "visit_team") by discriminate.
  by rewrite insert_insert_eq.
Qed.

(** The URL enters [boxscore_of] through its characters 47 to 54 only,
    and these only through [match_date]. *)
Lemma boxscore_of_other_url (request_url other_url : string) (soup : node)
    (date other_date : Py.datetime) :
  Py.strptime_Ymd (Py.slice 47 55 request_url) = Some date ->
  Py.strptime_Ymd (Py.slice 47 55 other_url) = Some other_date ->
  boxscore_of other_url soup
  = (fun data => <["match_date" := BDate other_date]> data)
    <$> boxscore_of request_url soup.
Proof.
  intros Hdate Hother. unfold boxscore_of.
  destruct (find "div" [("class", AttrIs "scorebox")] soup) as [scorebox|]; simpl; [|done].
  rewrite Hdate, Hother. simpl.
  destruct (team_code (find_all "strong" [] scorebox) 0) as [visit|]; simpl; [|done].
  destruct (team_code (find_all "strong" [] scorebox) 1) as [home|]; simpl; [|done].
  destruct (if _ =? 1 then _ else Ok (BInt 0)) as [round|]; simpl; [|done].
  destruct (footer_cells soup visit) as [visit_stats|]; simpl; [|done].
  destruct (footer_cells soup home) as [home_stats|]; simpl; [|done].
  rewrite (first_fields_insert date other_date).
  rewrite copy_stats_insert by (intros s; simpl; discriminate).
  destruct (copy_stats (zip visit_stats home_stats) _) as [data|]; simpl; [|done].
  rewrite !item_insert_ne by discriminate.
  destruct (item data "home_pts") as [home_text|]; simpl; [|done].
  destruct (int_of home_text) as [home_pts|]; simpl; [|done].
  destruct (item data "visit_pts") as [visit_text|]; simpl; [|done].
  destruct (int_of visit_text) as [visit_pts|]; simpl; [|done].
  destruct (home_pts >? visit_pts);
    [destruct (item data "home_team") as [game_result|]
    |destruct (item data "visit_team") as [game_result|]]; simpl; try done;
    by rewrite (insert_insert_ne _ "game_result" "match_date") by discriminate.
Qed.

(** C10 (as amended). [match_date] is what [strptime] reads from the
    characters 47 to 54 of the request URL, never from the page. The
    scorebox is looked up first: a page without it gives
    [AttributeError] whatever the URL. On a page that holds it, when
    these characters are not a date the call raises [ValueError]; when
    they are, a dictionary that is returned carries that date, and any
    other URL that serves the same page and holds a date at these
    positions has the same outcome (the same exception, or the same
    dictionary but for [match_date], which is the date of that URL). For
    a URL made of the site's base, "/boxscores/" and an eight-character
    date these characters are that date. *)
Theorem match_date_from_url (request_url text : string) (soup : node)
    (log : list string) :
  web request_url = Ok text ->
  BeautifulSoup text = Ok soup ->
  match find "div" [("class", AttrIs "scorebox")] soup with
  | None => get_boxscore request_url log = (Raise AttributeError, log ++ [request_url])
  | Some _ =>
      match Py.strptime_Ymd (Py.slice 47 55 request_url) with
      | None => get_boxscore request_url log = (Raise ValueError, log ++ [request_url])
      | Some date =>
          (forall data,
              (get_boxscore request_url log).1 = Ok data ->
              data !! "match_date" = Some (BDate date))
          /\ (forall other_url other_date,
                 web other_url = Ok text ->
                 Py.strptime_Ymd (Py.slice 47 55 other_url) = Some other_date ->
                 (get_boxscore other_url log).1
                 = (fun data => <["match_date" := BDate other_date]> data)
                   <$> (get_boxscore request_url log).1)
      end
  end
  /\ (forall date rest,
         String.length date = 8%nat ->
         request_url = BASE_URL +:+ "/boxscores/" +:+ date +:+ rest ->
         Py.slice 47 55 request_url = date).
Proof.
  intros Hweb Hsoup. split.
  - destruct (find "div" [("class", AttrIs "scorebox")] soup) as [scorebox|] eqn:Hscorebox.
    + destruct (Py.strptime_Ymd (Py.slice 47 55 request_url)) as [date|] eqn:Hdate.
      * split.
        -- intros data. rewrite get_boxscore_unfold, Hweb. simpl. rewrite Hsoup. simpl.
           intros Hres. apply boxscore_of_result in Hres
             as (d & hp & vp & g & _ & _ & _ & -> & (date' & Hparse & Hd) & _).
           rewrite lookup_insert_ne by discriminate. congruence.
        -- intros other_url other_date Hother Hother_date.
           rewrite !get_boxscore_unfold, Hweb, Hother. simpl. rewrite Hsoup. simpl.
           by apply boxscore_of_other_url with (date := date).
      * rewrite get_boxscore_unfold, Hweb. simpl. rewrite Hsoup. simpl.
        unfold boxscore_of. rewrite Hscorebox. simpl. by rewrite Hdate.
    + rewrite get_boxscore_unfold, Hweb. simpl. rewrite Hsoup. simpl.
      unfold boxscore_of. by rewrite Hscorebox.
  - intros date rest Hlen ->. unfold Py.slice. simpl.
    change (String.substring 0 8 (date +:+ rest) = date).
    rewrite <- Hlen. apply substring_0_app.
Qed.

(** Where the footer loop does copy every cell: each pair that [zip]
    forms leaves both of its keys in the dictionary. *)
Lemma copy_stats_covers_pairs (cells : list (node * node))
    (data data' : gmap string box_value) (v h : node) :
  copy_stats cells data = Ok data' -> (v, h) ∈ cells ->
  exists vs hs,
    get "data-stat" v = Some vs /\ get "data-stat" h = Some hs
    /\ is_Some (data' !! ("visit_" +:+ vs)) /\ is_Some (data' !! ("home_" +:+ hs)).
Proof.
  revert data. induction cells as [|[v0 h0] cells IH]; intros data H Hin.
  - by apply elem_of_nil in Hin.
  - simpl in H. inv_bind H as vs Hvs. inv_bind H as hs Hhs.
    apply elem_of_cons in Hin as [Heq | Hin]; [|by eapply IH].
    inversion Heq; subst v0 h0; clear Heq.
    exists vs, hs. unfold getitem in Hvs, Hhs.
    apply or_raise_Ok in Hvs. apply or_raise_Ok in Hhs.
    repeat split; auto.
    + eapply copy_stats_keeps_key; [|exact H].
      rewrite !lookup_insert_is_Some'. auto.
    + eapply copy_stats_keeps_key; [|exact H].
      rewrite !lookup_insert_is_Some'. auto.
Qed.

(** *** Injury report *)

Lemma get_injury_report_unfold (team : string) (year : Z) (log : list string) :
  get_injury_report team year log =
  (web (team_url team year) ≫= (fun text => BeautifulSoup text ≫= injury_report_of),
   log ++ [team_url team year]).
Proof.
  unfold get_injury_report, mbind, M_bind, make_request, lift.
  by destruct (web (team_url team year)).
Qed.

(** A cell that [find_all] kept for having a [csk] has one. *)
Lemma csk_of_found (root : node) (name : string) :
  exists players,
    rmapM (getitem "csk") (find_all name [("csk", AttrTrue)] root) = Ok players
    /\ Forall2 (fun th p => get "csk" th = Some p)
         (find_all name [("csk", AttrTrue)] root) players.
Proof.
  unfold find_all.
  induction (descendants root) as [|d ds IH]; simpl.
  - exists []. split; [done | constructor].
  - destruct IH as (ps & Hps & Hall).
    destruct (tag_matches name [("csk", AttrTrue)] d) eqn:Hm; [|by exists ps].
    destruct d as [nm attrs cs| |]; simpl in Hm; try discriminate.
    apply andb_prop in Hm as [_ Hm]. rewrite andb_true_r in Hm.
    unfold attr_matches in Hm; simpl in Hm.
    destruct (lookup_attr "csk" attrs) as [p|] eqn:Hp; [|discriminate].
    exists (p :: ps). simpl. unfold getitem at 1. simpl. rewrite Hp. simpl.
    rewrite Hps. simpl. split; [done|]. by constructor.
Qed.

(** C2 (as amended). [get_injury_report] fetches the team page once and
    looks at no table placed directly in the injuries container. It
    returns null, without raising, when the container is absent or holds no
    comment with text in it; and when the markup of the first comment
    holds a table, it returns the [csk] values of the header cells of
    that table that carry one. *)
Theorem injury_report_cases (team : string) (year : Z) (log : list string)
    (text : string) (soup : node) :
  web (team_url team year) = Ok text ->
  BeautifulSoup text = Ok soup ->
  exists r,
    get_injury_report team year log = (r, log ++ [team_url team year])
    /\ (find "div" [("id", AttrIs "all_injuries")] soup = None ->
        r = Ok None)
    /\ (forall container,
           find "div" [("id", AttrIs "all_injuries")] soup = Some container ->
           find_comment container = None \/ find_comment container = Some "" ->
           r = Ok None)
    /\ (forall container comment comment_soup table,
           find "div" [("id", AttrIs "all_injuries")] soup = Some container ->
           find_comment container = Some comment -> comment <> "" ->
           BeautifulSoup comment = Ok comment_soup ->
           find "table" [] comment_soup = Some table ->
           exists players,
             r = Ok (Some players)
             /\ Forall2 (fun th p => get "csk" th = Some p)
                  (find_all "th" [("csk", AttrTrue)] table) players).
Proof.
  intros Hweb Hsoup. eexists. split.
  { rewrite get_injury_report_unfold, Hweb. simpl. rewrite Hsoup. simpl. reflexivity. }
  unfold injury_report_of. repeat split.
  - intros ->. done.
  - intros container -> [-> | ->]; done.
  - intros container comment comment_soup table -> -> Hne -> Htable.
    destruct comment as [|c comment]; [done|]. simpl. rewrite Htable. simpl.
    destruct (csk_of_found table "th") as (players & -> & Hall).
    exists players. by split.
Qed.

(** *** Schedule *)

(** C4. In the entry of a schedule row, the visiting team code is
    [team_names[0:3]] and the home team code [team_names[13:16]] of the
    [csk] of the visitor cell, the date is the first eight characters of
    the [csk] of the date cell, and the link is the base URL followed by
    the [href] of the box-score anchor when the cell has an anchor, and
    the base URL, "/boxscores/", the date, the home team code and "0.html"
    when it has none. *)
Theorem get_match_data_fields (match_row names_cell date_cell box_cell : node)
    (team_names date_key : string) :
  find "td" [("data-stat", AttrIs "visitor_team_name")] match_row = Some names_cell ->
  get "csk" names_cell = Some team_names ->
  find "th" [("data-stat", AttrIs "date_game")] match_row = Some date_cell ->
  get "csk" date_cell = Some date_key ->
  find "td" [("data-stat", AttrIs "box_score_text")] match_row = Some box_cell ->
  let visit := Py.slice 0 3 team_names in
  let home := Py.slice 13 16 team_names in
  let date := Py.slice 0 8 date_key in
  (forall box_score href,
      find "a" [] box_cell = Some box_score -> get "href" box_score = Some href ->
      get_match_data match_row = Ok (mk_entry (BASE_URL +:+ href) date visit home))
  /\ (find "a" [] box_cell = None ->
      get_match_data match_row
      = Ok (mk_entry (BASE_URL +:+ "/boxscores/" +:+ date +:+ home +:+ "0.html")
              date visit home)).
Proof.
  intros Hn Hnk Hd Hdk Hb visit home date. unfold get_match_data.
  rewrite Hn, Hd, Hb. simpl. rewrite Hnk, Hdk. simpl. split.
  - intros a href -> Hhref. simpl. by rewrite Hhref.
  - intros ->. done.
Qed.

Lemma parse_matches_page_entries (page : string) (entries : list schedule_entry) :
  _parse_matches_from_text page = Ok entries <-> page_entries page entries.
Proof.
  unfold _parse_matches_from_text, page_entries. split.
  - intros H. inv_bind H as soup Hsoup. inv_bind H as tbody Htbody.
    apply or_raise_Ok in Htbody. eauto.
  - intros (soup & tbody & -> & Htbody & H). simpl. rewrite Htbody. exact H.
Qed.

(** The month loop, when every month page arrives and parses. *)
Lemma all_months_run (month_urls month_texts : list string)
    (per_month : list (list schedule_entry)) (schedule_data : list schedule_entry)
    (log : list string) :
  rmapM web month_urls = Ok month_texts ->
  Forall2 page_entries month_texts per_month ->
  all_months month_urls schedule_data log
  = (Ok (schedule_data ++ concat per_month), log ++ month_urls).
Proof.
  revert month_texts per_month schedule_data log.
  induction month_urls as [|u urls IH]; intros texts per acc log Hweb Hpages.
  - inversion Hweb; subst. inversion Hpages; subst. simpl.
    by rewrite !app_nil_r.
  - simpl in Hweb. destruct (web u) as [t|] eqn:Hu; simpl in Hweb; [|discriminate].
    destruct (rmapM web urls) as [ts|] eqn:Hus; simpl in Hweb; [|discriminate].
    inversion Hweb; subst texts; clear Hweb.
    inversion Hpages as [|? es ? per' Hp Hps]; subst.
    apply parse_matches_page_entries in Hp.
    simpl. unfold mbind at 1, M_bind, make_request. rewrite Hu.
    unfold mbind at 1, M_bind, lift. rewrite Hp.
    rewrite (IH ts per' (acc ++ es) (log ++ [u]) eq_refl Hps).
    by rewrite <- !app_assoc.
Qed.

(** C3. When the season page shows the month links [links], and the pages
    of the links after the first arrive, [get_all_schedule] passes to
    [make_request] the season URL and then each link after the first, in
    order and nothing else: 1 + (M - 1) calls for M links. It returns,
    page after page, the entries of the rows that are not the "Playoffs"
    separator. *)
Theorem get_all_schedule_fetches_and_rows (year : Z) (log : list string)
    (text : string) (links month_texts : list string)
    (per_page : list (list schedule_entry)) :
  web (season_url year) = Ok text ->
  _get_month_links text = Ok links ->
  rmapM web (tail links) = Ok month_texts ->
  Forall2 page_entries (text :: month_texts) per_page ->
  get_all_schedule year log
  = (Ok (concat per_page), log ++ season_url year :: tail links)
  /\ List.length (season_url year :: tail links) = (1 + (List.length links - 1))%nat.
Proof.
  intros Hweb Hlinks Hmonths Hpages.
  inversion Hpages as [|? es ? per' Hp Hps]; subst.
  apply parse_matches_page_entries in Hp. split.
  - unfold get_all_schedule.
    unfold mbind at 1, M_bind, make_request. rewrite Hweb.
    unfold mbind at 1, M_bind, lift. rewrite Hp.
    unfold mbind at 1, M_bind. rewrite Hlinks.
    rewrite (all_months_run _ _ _ _ _ Hmonths Hps). simpl.
    by rewrite <- app_assoc.
  - destruct links; simpl; lia.
Qed.

(** The two month loops run in step: same calls, same exceptions, and the
    team loop keeps of each page the entries where the team plays. *)
Lemma team_months_all_months (team : string) (month_urls : list string)
    (schedule_data : list schedule_entry) (log : list string) :
  team_months team month_urls (List.filter (plays team) schedule_data) log
  = ((List.filter (plays team) <$> (all_months month_urls schedule_data log).1),
     (all_months month_urls schedule_data log).2).
Proof.
  revert schedule_data log.
  induction month_urls as [|u urls IH]; intros acc log; simpl; [done|].
  unfold mbind, M_bind, make_request, lift.
  destruct (web u) as [t|e]; [|done].
  destruct (_parse_matches_from_text t) as [ms|e]; [|done].
  rewrite <- List.filter_app. apply IH.
Qed.

Lemma get_team_schedule_get_all_schedule (team : string) (year : Z) (log : list string) :
  get_team_schedule team year log
  = ((List.filter (plays team) <$> (get_all_schedule year log).1),
     (get_all_schedule year log).2).
Proof.
  unfold get_team_schedule, get_all_schedule.
  unfold mbind, M_bind, make_request, lift.
  destruct (web (season_url year)) as [t|e]; [|done].
  destruct (_parse_matches_from_text t) as [ms|e]; [|done].
  destruct (_get_month_links t) as [links|e]; [|done].
  apply team_months_all_months.
Qed.

Lemma filter_sublist {A : Type} (p : A -> bool) (l : list A) :
  sublist (List.filter p l) l.
Proof.
  induction l as [|x l IH]; simpl; [constructor|].
  destruct (p x); by constructor.
Qed.

(** C5. Over the same pages, when [get_all_schedule] returns a list,
    [get_team_schedule] makes the same calls and returns the entries of
    that list, in the same order, in which the team is the home or the
    visiting team: a subsequence of it, with the team in every entry. *)
Theorem get_team_schedule_subset (team : string) (year : Z) (log log' : list string)
    (all : list schedule_entry) :
  get_all_schedule year log = (Ok all, log') ->
  exists team_schedule,
    get_team_schedule team year log = (Ok team_schedule, log')
    /\ team_schedule = List.filter (plays team) all
    /\ sublist team_schedule all
    /\ Forall (fun m => home_team m = team \/ visit_team m = team) team_schedule.
Proof.
  intros Hall. exists (List.filter (plays team) all).
  rewrite get_team_schedule_get_all_schedule, Hall. simpl.
  repeat split; [apply filter_sublist|].
  apply Forall_forall. intros m Hm.
  apply list_elem_of_In, List.filter_In in Hm as [_ Hm].
  unfold plays in Hm. apply orb_prop in Hm as [Hm | Hm];
    apply String.eqb_eq in Hm; auto.
Qed.

(** *** Roster *)

Lemma get_roster_unfold (team : string) (year : Z) (log : list string) :
  get_roster team year log =
  (web (team_url team year) ≫= (fun text =>
     BeautifulSoup text ≫= (fun soup => roster_rows soup ≫= rmapM roster_row)),
   log ++ [team_url team year]).
Proof.
  unfold get_roster, mbind at 1, M_bind, make_request, lift.
  by destruct (web (team_url team year)).
Qed.


(** [url.split('/')[-1]] is always there: [split] never gives an empty
    list. *)
Lemma split_last (sep : ascii) (s : string) :
  is_Some (Py.last_item (Py.split sep s)).
Proof.
  unfold Py.last_item, Py.split. generalize EmptyString as cur.
  induction s as [|c s IH]; intros cur; simpl; [eauto|].
  destruct (Ascii.eqb c sep); [|apply IH].
  specialize (IH EmptyString). destruct (Py.split_go sep "" s); [by destruct IH | done].
Qed.

(** A cell that holds what its branch reads gives its field. *)
Lemma roster_cell_builds (data : gmap string (roster_value F)) (table_cell : node) :
  cell_builds table_cell = true -> exists data', roster_cell data table_cell = Ok data'.
Proof.
  unfold cell_builds, roster_cell, getitem.
  destruct (get "data-stat" table_cell) as [data_stat|]; [|discriminate]. simpl.
  destruct (String.eqb data_stat "weight").
  { intros [n Hn]%bool_decide_eq_true. rewrite Hn. simpl. eauto. }
  destruct (String.eqb data_stat "player").
  { intros [[player Hplayer]%bool_decide_eq_true [url Hurl]%bool_decide_eq_true]%andb_prop.
    rewrite Hplayer. simpl.
    destruct (find "a" [] table_cell) as [a|]; [|discriminate]. simpl in *.
    rewrite Hurl. simpl.
    destruct (split_last "/" url) as [file Hfile]. rewrite Hfile. simpl. eauto. }
  destruct (String.eqb data_stat "years_experience").
  { intros [x Hx]%bool_decide_eq_true.
    destruct (get "csk" table_cell) as [csk|]; [|discriminate]. simpl in *.
    rewrite Hx. simpl. eauto. }
  destruct (String.eqb data_stat "flag").
  { intros [span Hspan]%bool_decide_eq_true. rewrite Hspan. simpl. eauto. }
  destruct (String.eqb data_stat "height").
  { intros [x Hx]%bool_decide_eq_true.
    destruct (get "csk" table_cell) as [csk|]; [|discriminate]. simpl in *.
    rewrite Hx. simpl. eauto. }
  eauto.
Qed.

Lemma roster_cells_build (table_cells : list node) (data : gmap string (roster_value F)) :
  forallb cell_builds table_cells = true ->
  exists data', roster_cells table_cells data = Ok data'.
Proof.
  revert data. induction table_cells as [|c cs IH]; intros data H; simpl; [eauto|].
  simpl in H. apply andb_prop in H as [Hc Hcs].
  destruct (roster_cell_builds data c Hc) as [d Hd]. rewrite Hd. simpl. by apply IH.
Qed.

(** Settle the tests on the [data-stat] of the cell at hand. *)
Ltac settle_stats :=
  repeat match goal with
    | |- context [bool_decide (?a = ?b)] =>
        first [ rewrite (bool_decide_eq_true_2 (a = b)) by reflexivity
              | rewrite (bool_decide_eq_false_2 (a = b)) by congruence ]
    end.

(** What one cell does to the three coerced fields: it writes the one
    its [data-stat] names and leaves the others. *)
Lemma roster_cell_fields (data data' : gmap string (roster_value F)) (table_cell : node) :
  roster_cell data table_cell = Ok data' ->
  data' !! "weight"
  = (if bool_decide (get "data-stat" table_cell = Some "weight")
     then RInt <$> Py.int (text table_cell) else data !! "weight")
  /\ data' !! "height"
     = (if bool_decide (get "data-stat" table_cell = Some "height")
        then csk ← get "csk" table_cell; RFloat <$> float csk else data !! "height")
  /\ data' !! "years_experience"
     = (if bool_decide (get "data-stat" table_cell = Some "years_experience")
        then csk ← get "csk" table_cell; RFloat <$> float csk
        else data !! "years_experience").
Proof.
  intros H. unfold roster_cell in H.
  inv_bind H as data_stat Hstat. unfold getitem in Hstat. apply or_raise_Ok in Hstat.
  rewrite Hstat.
  destruct (String.eqb data_stat "weight") eqn:Ew.
  { apply String.eqb_eq in Ew; subst data_stat.
    inv_bind H as n Hn. apply or_raise_Ok in Hn. inversion H; subst; clear H.
    settle_stats. rewrite lookup_insert_eq, !lookup_insert_ne by discriminate.
    by rewrite Hn. }
  destruct (String.eqb data_stat "player") eqn:Ep.
  { apply String.eqb_eq in Ep; subst data_stat.
    inv_bind H as player Hplayer. inv_bind H as a Ha. inv_bind H as url Hurl.
    inv_bind H as file Hfile. inversion H; subst; clear H.
    settle_stats. by rewrite !lookup_insert_ne by discriminate. }
  destruct (String.eqb data_stat "years_experience") eqn:Ey.
  { apply String.eqb_eq in Ey; subst data_stat.
    inv_bind H as csk Hcsk. unfold getitem in Hcsk. apply or_raise_Ok in Hcsk.
    inv_bind H as x Hx. apply or_raise_Ok in Hx. inversion H; subst; clear H.
    settle_stats. rewrite lookup_insert_eq, !lookup_insert_ne by discriminate.
    rewrite Hcsk. simpl. by rewrite Hx. }
  destruct (String.eqb data_stat "flag") eqn:Ef.
  { apply String.eqb_eq in Ef; subst data_stat.
    inv_bind H as span Hspan. inversion H; subst; clear H.
    settle_stats. by rewrite !lookup_insert_ne by discriminate. }
  destruct (String.eqb data_stat "height") eqn:Eh.
  { apply String.eqb_eq in Eh; subst data_stat.
    inv_bind H as csk Hcsk. unfold getitem in Hcsk. apply or_raise_Ok in Hcsk.
    inv_bind H as x Hx. apply or_raise_Ok in Hx. inversion H; subst; clear H.
    settle_stats. rewrite lookup_insert_eq, !lookup_insert_ne by discriminate.
    rewrite Hcsk. simpl. by rewrite Hx. }
  inversion H; subst; clear H.
  apply String.eqb_neq in Ew, Ey, Eh.
  settle_stats. by rewrite !lookup_insert_ne by done.
Qed.

(** Through the loop over the cells, a field that the cells write the
    same way each time holds what the last of its cells gave. *)
Lemma roster_cells_last (key : string) (value : node -> option (roster_value F))
    (table_cells : list node) (data data' : gmap string (roster_value F)) :
  (forall d d' cell,
      roster_cell d cell = Ok d' ->
      d' !! key = if bool_decide (get "data-stat" cell = Some key) then value cell
                  else d !! key) ->
  roster_cells table_cells data = Ok data' ->
  data' !! key = match last_with_stat key table_cells with
                 | Some cell => value cell
                 | None => data !! key
                 end.
Proof.
  intros Hcell. revert data.
  induction table_cells as [|c cs IH]; intros data H; simpl in H.
  - by inversion H.
  - inv_bind H as d Hd. apply IH in H. rewrite H. simpl.
    destruct (last_with_stat key cs); [done|].
    rewrite (Hcell _ _ _ Hd). by destruct (bool_decide _).
Qed.

Lemma roster_row_coerced (row : node) (data : gmap string (roster_value F)) :
  roster_row row = Ok data -> coerced_fields (find_all "td" [] row) data.
Proof.
  intros H. unfold roster_row in H. repeat split.
  - rewrite (roster_cells_last "weight" (fun cell => RInt <$> Py.int (text cell))
               _ _ _ (fun d d' cell Hc => proj1 (roster_cell_fields d d' cell Hc)) H).
    by destruct (last_with_stat _ _).
  - rewrite (roster_cells_last "height"
               (fun cell => csk ← get "csk" cell; RFloat <$> float csk)
               _ _ _ (fun d d' cell Hc => proj1 (proj2 (roster_cell_fields d d' cell Hc))) H).
    by destruct (last_with_stat _ _).
  - rewrite (roster_cells_last "years_experience"
               (fun cell => csk ← get "csk" cell; RFloat <$> float csk)
               _ _ _ (fun d d' cell Hc => proj2 (proj2 (roster_cell_fields d d' cell Hc))) H).
    by destruct (last_with_stat _ _).
Qed.

Lemma rows_build_records (table_rows : list node) :
  forallb (fun row => forallb cell_builds (find_all "td" [] row)) table_rows = true ->
  exists records, rmapM roster_row table_rows = Ok records.
Proof.
  induction table_rows as [|row rows IH]; simpl; [eauto|].
  intros [Hrow Hrows]%andb_prop. destruct (IH Hrows) as [records Hrecords].
  destruct (roster_cells_build _ ∅ Hrow) as [data Hdata].
  unfold roster_row at 1. rewrite Hdata. simpl. rewrite Hrecords. simpl. eauto.
Qed.

(** C6 (as amended). On a roster page whose table body has N rows, all
    of whose cells hold what the coercion of their column reads,
    [get_roster] returns N dictionaries, one per row in the order of the
    rows. In each, [weight] is the integer read from the text of the
    weight cell of the row, and [height] and [years_experience] are the
    floats read from the [csk] attribute of their cells, not from the
    text; a row without such a cell has no such field. *)
Theorem get_roster_records (team : string) (year : Z) (log : list string)
    (text : string) (soup : node) (table_rows : list node) :
  web (team_url team year) = Ok text ->
  BeautifulSoup text = Ok soup ->
  roster_rows soup = Ok table_rows ->
  forallb (fun row => forallb cell_builds (find_all "td" [] row)) table_rows = true ->
  exists records,
    get_roster team year log = (Ok records, log ++ [team_url team year])
    /\ List.length records = List.length table_rows
    /\ Forall2 (fun row data =>
                  roster_row row = Ok data
                  /\ coerced_fields (find_all "td" [] row) data)
         table_rows records.
Proof.
  intros Hweb Hsoup Hrows Hcells.
  destruct (rows_build_records table_rows Hcells) as [records Hrecords].
  exists records. split; [|split].
  - rewrite get_roster_unfold, Hweb. simpl. rewrite Hsoup. simpl.
    rewrite Hrows. simpl. by rewrite Hrecords.
  - by apply rmapM_length in Hrecords.
  - apply rmapM_Forall2 in Hrecords.
    eapply Forall2_impl; [exact Hrecords|]. simpl.
    intros row data Hrow. split; [done | by apply roster_row_coerced].
Qed.

(** ** Further properties of the extractors *)

(** *** What the schedule extractors fetch *)

Lemma starts_with_app (a b : string) : Py.starts_with a (a +:+ b) = true.
Proof.
  unfold Py.starts_with.
  induction a as [|c a IH]; simpl; [by destruct b|].
  destruct (ascii_dec c c); [exact IH | congruence].
Qed.

Lemma season_url_on_host (year : Z) : Py.starts_with BASE_URL (season_url year) = true.
Proof. apply starts_with_app. Qed.

Lemma month_links_on_host (text : string) (links : list string) :
  _get_month_links text = Ok links ->
  Forall (fun u => Py.starts_with BASE_URL u = true) links.
Proof.
  unfold _get_month_links. intros H. inv_bind H as soup Hsoup.
  inv_bind H as div Hdiv. apply rmapM_Forall2 in H. clear Hsoup Hdiv.
  induction H as [|a u anchors links Ha _ IH]; constructor; [|exact IH].
  inv_bind Ha as href Hhref. inversion Ha; subst. apply starts_with_app.
Qed.

(** The month loop passes to [make_request] a run of its URLs, from the
    first on, whether it ends well or in an exception. *)
Lemma all_months_log (month_urls : list string) (schedule_data : list schedule_entry)
    (log : list string) :
  exists fetched,
    (all_months month_urls schedule_data log).2 = log ++ fetched
    /\ fetched `prefix_of` month_urls.
Proof.
  revert schedule_data log.
  induction month_urls as [|u urls IH]; intros acc log; simpl.
  - exists []. split; [by rewrite app_nil_r | done].
  - unfold mbind, M_bind, make_request, lift.
    destruct (web u) as [t|e]; simpl.
    + destruct (_parse_matches_from_text t) as [ms|e]; simpl.
      * destruct (IH (acc ++ ms) (log ++ [u])) as (fetched & Hlog & Hpre).
        exists (u :: fetched). split.
        -- rewrite Hlog. by rewrite <- app_assoc.
        -- by apply prefix_cons.
      * exists [u]. split; [done|]. apply prefix_cons, prefix_nil.
    + exists [u]. split; [done|]. apply prefix_cons, prefix_nil.
Qed.

(** X1. [get_all_schedule] never asks for anything but the season page
    and then month links of that page, in the order of the page and
    starting with the second; every address it passes to [make_request]
    is on the site. This also holds when the call ends in an
    exception. *)
Theorem get_all_schedule_fetches_confined (year : Z) (log : list string) :
  exists fetched,
    (get_all_schedule year log).2 = log ++ season_url year :: fetched
    /\ Forall (fun u => Py.starts_with BASE_URL u = true) (season_url year :: fetched)
    /\ (forall text links,
           web (season_url year) = Ok text -> _get_month_links text = Ok links ->
           fetched `prefix_of` tail links).
Proof.
  unfold get_all_schedule, mbind, M_bind, make_request, lift.
  destruct (web (season_url year)) as [t|e] eqn:Hweb; simpl.
  2: { exists []. repeat split; [repeat constructor; apply season_url_on_host|].
       intros; discriminate. }
  destruct (_parse_matches_from_text t) as [ms|e]; simpl.
  2: { exists []. repeat split; [repeat constructor; apply season_url_on_host|].
       intros text links Ht _. apply prefix_nil. }
  destruct (_get_month_links t) as [links|e] eqn:Hlinks; simpl.
  2: { exists []. repeat split; [repeat constructor; apply season_url_on_host|].
       intros text links Ht _. apply prefix_nil. }
  destruct (all_months_log (tail links) ms (log ++ [season_url year]))
    as (fetched & Hlog & Hpre).
  exists fetched. split; [rewrite Hlog; by rewrite <- app_assoc|]. split.
  - constructor; [apply season_url_on_host|].
    apply month_links_on_host in Hlinks.
    destruct Hpre as [rest Hrest].
    assert (Forall (fun u => Py.starts_with BASE_URL u = true) (tail links)) as Htl
        by (destruct links; [constructor | by inversion Hlinks]).
    rewrite Hrest in Htl. by apply Forall_app in Htl as [Htl _].
  - intros text links' Ht Hl. inversion Ht; subst. rewrite Hlinks in Hl.
    by inversion Hl; subst.
Qed.

(** X2. [get_team_schedule] fails exactly when [get_all_schedule] fails,
    with the same exception, and the two always make the same calls:
    filtering by team changes neither the fetches nor the errors. *)
Theorem team_schedule_fails_with_all_schedule (team : string) (year : Z)
    (log : list string) :
  (get_team_schedule team year log).2 = (get_all_schedule year log).2
  /\ (forall e,
         (get_team_schedule team year log).1 = Raise e
         <-> (get_all_schedule year log).1 = Raise e).
Proof.
  rewrite get_team_schedule_get_all_schedule. simpl. split; [done|].
  intros e. destruct (get_all_schedule year log).1 as [all|e']; simpl; split;
    intros H; congruence.
Qed.

(** *** Errors of a schedule row *)

Lemma bind_Raise {A B : Type} (m : result A) (k : A -> result B) (e : exn) :
  (m ≫= k) = Raise e -> m = Raise e \/ exists a, m = Ok a /\ k a = Raise e.
Proof. destruct m as [a|e']; simpl; [eauto | intros H; left; congruence]. Qed.

Lemma or_raise_Raise {A : Type} (o : option A) (e e' : exn) :
  or_raise o e = Raise e' -> o = None /\ e' = e.
Proof. destruct o; simpl; [discriminate | intros H; split; congruence]. Qed.

(** X3. A schedule row fails only with [AttributeError] (one of the three
    cells is missing) or [TypeError] (a cell or the anchor lacks the
    attribute that is read); the slicing of the sort keys never raises. *)
Theorem get_match_data_errors (match_row : node) (e : exn) :
  get_match_data match_row = Raise e ->
  (e = AttributeError
   /\ (find "td" [("data-stat", AttrIs "visitor_team_name")] match_row = None
       \/ find "th" [("data-stat", AttrIs "date_game")] match_row = None
       \/ find "td" [("data-stat", AttrIs "box_score_text")] match_row = None))
  \/ (e = TypeError
      /\ ((exists c, find "td" [("data-stat", AttrIs "visitor_team_name")] match_row = Some c
                     /\ get "csk" c = None)
          \/ (exists c, find "th" [("data-stat", AttrIs "date_game")] match_row = Some c
                        /\ get "csk" c = None)
          \/ (exists c a, find "td" [("data-stat", AttrIs "box_score_text")] match_row = Some c
                          /\ find "a" [] c = Some a /\ get "href" a = None))).
Proof.
  unfold get_match_data. intros H.
  apply bind_Raise in H as [H | (names_cell & Hn & H)].
  { apply or_raise_Raise in H as [H ->]. left. auto. }
  apply or_raise_Ok in Hn.
  apply bind_Raise in H as [H | (team_names & Hnk & H)].
  { apply or_raise_Raise in H as [H ->]. right. split; [done|]. left. eauto. }
  cbv zeta in H.
  apply bind_Raise in H as [H | (date_cell & Hd & H)].
  { apply or_raise_Raise in H as [H ->]. left. auto. }
  apply or_raise_Ok in Hd.
  apply bind_Raise in H as [H | (date_key & Hdk & H)].
  { apply or_raise_Raise in H as [H ->]. right. split; [done|]. right. left. eauto. }
  cbv zeta in H.
  apply bind_Raise in H as [H | (box_cell & Hb & H)].
  { apply or_raise_Raise in H as [H ->]. left. auto. }
  apply or_raise_Ok in Hb.
  apply bind_Raise in H as [H | (link & Hl & H)]; [|discriminate].
  destruct (find "a" [] box_cell) as [a|] eqn:Ha; [|discriminate].
  apply bind_Raise in H as [H | (href & Hh & H)]; [|discriminate].
  apply or_raise_Raise in H as [H ->]. right. split; [done|]. right. right. eauto.
Qed.

Lemma substring_length_le (n m : nat) (s : string) :
  (String.length (String.substring n m s) <= m)%nat.
Proof.
  revert n m. induction s as [|c s IH]; intros [|n] [|m]; simpl; try lia.
  - specialize (IH 0%nat m). lia.
  - apply (IH n 0%nat).
  - apply (IH n (S m)).
Qed.

Lemma substring_length_full (n m : nat) (s : string) :
  (n + m <= String.length s)%nat -> String.length (String.substring n m s) = m.
Proof.
  revert n m. induction s as [|c s IH]; intros [|n] [|m]; simpl; intros H; try lia.
  - rewrite (IH 0%nat m); lia.
  - apply (IH n 0%nat). lia.
  - apply (IH n (S m)). lia.
Qed.

Lemma substring_length_short (n m : nat) (s : string) :
  String.length (String.substring n m s) = m -> (0 < m)%nat ->
  (n + m <= String.length s)%nat.
Proof.
  revert n m. induction s as [|c s IH]; intros [|n] [|m]; simpl; intros H Hm; try lia.
  - destruct m as [|m]; [lia|]. specialize (IH 0%nat (S m)). simpl in IH.
    assert (String.length (String.substring 0 (S m) s) = S m) as H' by lia.
    specialize (IH H'). lia.
  - specialize (IH n (S m) H). lia.
Qed.

(** X4. The codes of an entry are never longer than three characters and
    its date never longer than eight: a sort key that is too short gives
    shorter, possibly empty, fields instead of an exception. When the
    home code has its three characters, so has the visiting code. *)
Theorem entry_field_lengths (match_row : node) (m : schedule_entry) :
  get_match_data match_row = Ok m ->
  (String.length (visit_team m) <= 3)%nat
  /\ (String.length (home_team m) <= 3)%nat
  /\ (String.length (match_date m) <= 8)%nat
  /\ (String.length (home_team m) = 3%nat -> String.length (visit_team m) = 3%nat).
Proof.
  unfold get_match_data. intros H.
  inv_bind H as names_cell Hn. inv_bind H as team_names Hnk.
  inv_bind H as date_cell Hd. inv_bind H as date_key Hdk.
  inv_bind H as box_cell Hb. inv_bind H as link Hl.
  inversion H; subst; clear H. simpl. unfold Py.slice.
  repeat split; try apply substring_length_le.
  intros Hhome. apply substring_length_short in Hhome; [|simpl; lia].
  apply substring_length_full. simpl in *. lia.
Qed.

(** *** Errors of the injury report *)


(** *** The dictionary of a box score *)

Lemma item_is_Some (data : gmap string box_value) (key : string) (n : Z) :
  (item data key ≫= int_of) = Ok n -> is_Some (data !! key).
Proof.
  intros H. inv_bind H as v Hv. apply or_raise_Ok in Hv. by rewrite Hv.
Qed.

(** X6. A dictionary that [get_boxscore] returns always holds the eight
    fixed keys; a page whose footers give no [pts] for a team never
    yields a dictionary. *)
Theorem boxscore_keys (request_url : string) (log log' : list string)
    (data : gmap string box_value) :
  get_boxscore request_url log = (Ok data, log') ->
  Forall (fun key => is_Some (data !! key))
    ["match_date"; "visit_team"; "home_team"; "is_playoff"; "playoff_round";
     "home_pts"; "visit_pts"; "game_result"].
Proof.
  rewrite get_boxscore_unfold. intros H. inversion H as [[Hres Hlog]]; clear H.
  inv_bind Hres as text Htext. inv_bind Hres as soup Hsoup. unfold boxscore_of in Hres.
  inv_bind Hres as scorebox Hscorebox. inv_bind Hres as date Hdate.
  inv_bind Hres as visit Hvisit. inv_bind Hres as home Hhome.
  inv_bind Hres as round Hround. inv_bind Hres as vcells Hvcells.
  inv_bind Hres as hcells Hhcells. inv_bind Hres as d Hd.
  inv_bind Hres as hp Hhp. inv_bind Hres as vp Hvp. inv_bind Hres as g Hg.
  inversion Hres; subst; clear Hres.
  apply item_is_Some in Hhp. apply item_is_Some in Hvp.
  assert (forall key, is_Some (d !! key) -> is_Some ((<["game_result" := g]> d) !! key))
    as Hup by (intros key Hkey; rewrite lookup_insert_is_Some'; by right).
  assert (is_Some (d !! "match_date") /\ is_Some (d !! "visit_team")
          /\ is_Some (d !! "home_team") /\ is_Some (d !! "is_playoff")
          /\ is_Some (d !! "playoff_round")) as (K1 & K2 & K3 & K4 & K5).
  { repeat split; (eapply copy_stats_keeps_key; [|exact Hd]);
      rewrite !lookup_insert_is_Some'; auto 10. }
  repeat (apply Forall_cons; split); try (apply Hup; assumption).
  - rewrite lookup_insert_is_Some'. by left.
  - constructor.
Qed.

(** X7. [is_playoff] is 1 exactly when the page holds the span labelled
    "All Games in Series". Then [playoff_round] is the digit that follows
    the first "Game " of the heading that is followed by a digit; without
    the span both fields are the integer 0 and the heading is not read. *)
Theorem playoff_fields (request_url : string) (log log' : list string)
    (data : gmap string box_value) :
  get_boxscore request_url log = (Ok data, log') ->
  exists text soup,
    web request_url = Ok text
    /\ BeautifulSoup text = Ok soup
    /\ match find "span" [("data-label", AttrIs "All Games in Series")] soup with
       | Some _ =>
           data !! "is_playoff" = Some (BInt 1)
           /\ exists h1 digit,
               find "h1" [] soup = Some h1
               /\ Py.search_game (Soup.text h1) = Some digit
               /\ data !! "playoff_round" = Some (BStr digit)
       | None =>
           data !! "is_playoff" = Some (BInt 0)
           /\ data !! "playoff_round" = Some (BInt 0)
       end.
Proof.
  rewrite get_boxscore_unfold. intros H. inversion H as [[Hres Hlog]]; clear H.
  inv_bind Hres as text Htext. inv_bind Hres as soup Hsoup.
  exists text, soup. split; [done|]. split; [done|].
  unfold boxscore_of in Hres.
  inv_bind Hres as scorebox Hscorebox. inv_bind Hres as date Hdate.
  inv_bind Hres as visit Hvisit. inv_bind Hres as home Hhome.
  inv_bind Hres as round Hround. inv_bind Hres as vcells Hvcells.
  inv_bind Hres as hcells Hhcells. inv_bind Hres as d Hd.
  inv_bind Hres as hp Hhp. inv_bind Hres as vp Hvp. inv_bind Hres as g Hg.
  inversion Hres; subst; clear Hres.
  assert (d !! "is_playoff"
          = Some (BInt match find "span" [("data-label", AttrIs "All Games in Series")]
                               soup with
                       | Some _ => 1 | None => 0 end)) as Hp.
  { erewrite copy_stats_other_key; [| | |exact Hd];
      try (intros s; simpl; discriminate).
    rewrite lookup_insert_ne by discriminate. by rewrite lookup_insert_eq. }
  assert (d !! "playoff_round" = Some round) as Hr.
  { erewrite copy_stats_other_key; [| | |exact Hd];
      try (intros s; simpl; discriminate).
    by rewrite lookup_insert_eq. }
  rewrite !lookup_insert_ne by discriminate. rewrite Hp, Hr.
  destruct (find "span" _ soup) as [span|]; simpl in Hround.
  - inv_bind Hround as h1 Hh1. inv_bind Hround as digit Hdigit.
    apply or_raise_Ok in Hh1, Hdigit. inversion Hround; subst.
    split; [done|]. exists h1, digit. auto.
  - inversion Hround; subst. auto.
Qed.

Lemma zip_covers_l {A B : Type} (l : list A) (k : list B) (x : A) :
  List.length l = List.length k -> x ∈ l -> exists y, (x, y) ∈ zip l k.
Proof.
  revert k. induction l as [|a l IH]; intros [|b k] Hlen Hin; simpl in Hlen;
    try discriminate; [by apply elem_of_nil in Hin|].
  apply elem_of_cons in Hin as [-> | Hin].
  - exists b. apply elem_of_cons. by left.
  - destruct (IH k) as (y & Hy); [lia | done |]. exists y. apply elem_of_cons. by right.
Qed.

Lemma zip_covers_r {A B : Type} (l : list A) (k : list B) (y : B) :
  List.length l = List.length k -> y ∈ k -> exists x, (x, y) ∈ zip l k.
Proof.
  revert k. induction l as [|a l IH]; intros [|b k] Hlen Hin; simpl in Hlen;
    try discriminate; [by apply elem_of_nil in Hin|].
  apply elem_of_cons in Hin as [-> | Hin].
  - exists a. apply elem_of_cons. by left.
  - destruct (IH k) as (x & Hx); [lia | done |]. exists x. apply elem_of_cons. by right.
Qed.

(** X8. When the two footers show the same number of cells, the loop
    leaves a key for every one of them, under "visit_" for the visiting
    team and "home_" for the home team; no cell of either is left out. *)
Theorem equal_footers_copy_every_cell (visit_stats home_stats : list node)
    (data data' : gmap string box_value) :
  copy_stats (zip visit_stats home_stats) data = Ok data' ->
  List.length visit_stats = List.length home_stats ->
  (forall v, v ∈ visit_stats ->
     exists s, get "data-stat" v = Some s /\ is_Some (data' !! ("visit_" +:+ s)))
  /\ (forall h, h ∈ home_stats ->
        exists s, get "data-stat" h = Some s /\ is_Some (data' !! ("home_" +:+ s))).
Proof.
  intros Hcopy Hlen. split.
  - intros v Hv. destruct (zip_covers_l _ _ _ Hlen Hv) as (h & Hin).
    destruct (copy_stats_covers_pairs _ _ _ _ _ Hcopy Hin) as (vs & hs & Hvs & _ & Hk & _).
    eauto.
  - intros h Hh. destruct (zip_covers_r _ _ _ Hlen Hh) as (v & Hin).
    destruct (copy_stats_covers_pairs _ _ _ _ _ Hcopy Hin) as (vs & hs & _ & Hhs & _ & Hk).
    eauto.
Qed.

(** *** The dictionary of a roster row *)

Lemma roster_cell_keys (data data' : gmap string (roster_value F)) (table_cell : node) :
  roster_cell data table_cell = Ok data' ->
  (exists s, get "data-stat" table_cell = Some s /\ is_Some (data' !! s))
  /\ (forall key, is_Some (data !! key) -> is_Some (data' !! key)).
Proof.
  intros H. unfold roster_cell in H.
  inv_bind H as data_stat Hstat. unfold getitem in Hstat. apply or_raise_Ok in Hstat.
  destruct (String.eqb data_stat "weight") eqn:Ew.
  { apply String.eqb_eq in Ew; subst data_stat.
    inv_bind H as n Hn. inversion H; subst; clear H. split.
    - exists "weight". split; [done|]. rewrite lookup_insert_is_Some'. by left.
    - intros key Hkey. rewrite lookup_insert_is_Some'. by right. }
  destruct (String.eqb data_stat "player") eqn:Ep.
  { apply String.eqb_eq in Ep; subst data_stat.
    inv_bind H as player Hplayer. inv_bind H as a Ha. inv_bind H as url Hurl.
    inv_bind H as file Hfile. inversion H; subst; clear H. split.
    - exists "player". split; [done|]. rewrite !lookup_insert_is_Some'. auto.
    - intros key Hkey. rewrite !lookup_insert_is_Some'. auto. }
  destruct (String.eqb data_stat "years_experience") eqn:Ey.
  { inv_bind H as csk Hcsk. inv_bind H as x Hx. inversion H; subst; clear H. split.
    - exists data_stat. split; [done|]. rewrite lookup_insert_is_Some'. by left.
    - intros key Hkey. rewrite lookup_insert_is_Some'. by right. }
  destruct (String.eqb data_stat "flag") eqn:Ef.
  { inv_bind H as span Hspan. inversion H; subst; clear H. split.
    - exists data_stat. split; [done|]. rewrite lookup_insert_is_Some'. by left.
    - intros key Hkey. rewrite lookup_insert_is_Some'. by right. }
  destruct (String.eqb data_stat "height") eqn:Eh.
  { inv_bind H as csk Hcsk. inv_bind H as x Hx. inversion H; subst; clear H. split.
    - exists data_stat. split; [done|]. rewrite lookup_insert_is_Some'. by left.
    - intros key Hkey. rewrite lookup_insert_is_Some'. by right. }
  inversion H; subst; clear H. split.
  - exists data_stat. split; [done|]. rewrite lookup_insert_is_Some'. by left.
  - intros key Hkey. rewrite lookup_insert_is_Some'. by right.
Qed.

Lemma roster_cells_keys (table_cells : list node) (data data' : gmap string (roster_value F)) :
  roster_cells table_cells data = Ok data' ->
  (forall cell, cell ∈ table_cells ->
     exists s, get "data-stat" cell = Some s /\ is_Some (data' !! s))
  /\ (forall key, is_Some (data !! key) -> is_Some (data' !! key)).
Proof.
  revert data. induction table_cells as [|c cs IH]; intros data H; simpl in H.
  - inversion H; subst. split; [|done]. intros cell Hcell. by apply elem_of_nil in Hcell.
  - inv_bind H as d Hd. apply roster_cell_keys in Hd as ((s & Hs & Hkey) & Hkeep).
    apply IH in H as (Hcells & Hkeep'). split.
    + intros cell Hcell. apply elem_of_cons in Hcell as [-> | Hcell]; [|by apply Hcells].
      exists s. split; [done | by apply Hkeep'].
    + intros key Hk. by apply Hkeep', Hkeep.
Qed.

(** X9. Every cell of a roster row leaves its [data-stat] as a key of the
    dictionary of the row; no column is dropped. *)
Theorem roster_row_keys (row : node) (data : gmap string (roster_value F)) :
  roster_row row = Ok data ->
  forall cell, cell ∈ find_all "td" [] row ->
    exists s, get "data-stat" cell = Some s /\ is_Some (data !! s).
Proof. intros H. by apply roster_cells_keys in H as [H _]. Qed.

(** X10. The roster is all or nothing: on a page that arrived and holds the
    roster table, [get_roster] returns a list exactly when every row
    builds its dictionary; one row that fails (a weight that is no
    integer, a cell without its [csk]) fails the whole call. *)
Theorem get_roster_all_or_nothing (team : string) (year : Z) (log : list string)
    (text : string) (soup : node) (table_rows : list node) :
  web (team_url team year) = Ok text ->
  BeautifulSoup text = Ok soup ->
  roster_rows soup = Ok table_rows ->
  (exists records, (get_roster team year log).1 = Ok records)
  <-> Forall (fun row => exists data, roster_row row = Ok data) table_rows.
Proof.
  intros Hweb Hsoup Hrows. rewrite get_roster_unfold, Hweb. simpl.
  rewrite Hsoup. simpl. rewrite Hrows. simpl.
  clear Hweb Hsoup Hrows. split.
  - intros (records & H). apply rmapM_Forall2 in H.
    induction H as [|row data rows records Hrow _ IH]; constructor; eauto.
  - intros H. induction H as [|row rows (data & Hrow) _ (records & IH)].
    + by exists [].
    + exists (data :: records). simpl. rewrite Hrow. simpl. by rewrite IH.
Qed.

End Extractors.

(** * The extractors on concrete pages *)

Lemma box_page_run :
  get_boxscore HtmlParser.parse
    (Pages.site "" (Pages.box_page "107" ".333" "119")) Pages.box_url []
  = (Ok Pages.box_data, [Pages.box_url]).
Proof. apply run_with_items; vm_compute; reflexivity. Qed.

(** C1, witness: Denver, at home, beats the Lakers 119 to 107. *)
Lemma game_result_by_points_witness :
  get_boxscore HtmlParser.parse
    (Pages.site "" (Pages.box_page "107" ".333" "119")) Pages.box_url []
  = (Ok Pages.box_data, [Pages.box_url])
  /\ exists home visit home_pts visit_pts,
    Pages.box_data !! "home_team" = Some home
    /\ Pages.box_data !! "visit_team" = Some visit
    /\ (item Pages.box_data "home_pts" ≫= int_of) = Ok home_pts
    /\ (item Pages.box_data "visit_pts" ≫= int_of) = Ok visit_pts
    /\ Pages.box_data !! "game_result" = Some (if home_pts >? visit_pts then home else visit)
    /\ (visit_pts < home_pts -> Pages.box_data !! "game_result" = Some home)
    /\ (home_pts <= visit_pts -> Pages.box_data !! "game_result" = Some visit).
Proof.
  split; [exact box_page_run|].
  exact (game_result_by_points HtmlParser.parse
           (Pages.site "" (Pages.box_page "107" ".333" "119"))
           Pages.box_url [] [Pages.box_url] Pages.box_data box_page_run).
Defined.

(** C1, counterexample: at 100 to 100 the game goes to the visiting
    Lakers, not to Denver at home, and no team has more points. *)
Lemma tie_goes_to_visiting_team :
  (fun data => (item data "home_pts" ≫= int_of, item data "visit_pts" ≫= int_of,
                data !! "home_team", data !! "game_result"))
  <$> (get_boxscore HtmlParser.parse
         (Pages.site "" (Pages.box_page "100" ".333" "100")) Pages.box_url []).1
  = Ok (Ok 100, Ok 100, Some (BStr "DEN"), Some (BStr "LAL")).
Proof. vm_compute. reflexivity. Qed.

(** C7, the failing page: the visiting team attempted no three-pointer, so
    its percentage cell is empty and its footer has one visible cell less
    than the home footer. [zip] stops at the shorter list: the points of
    the home team, which its footer shows, are not copied, and the call
    ends in [KeyError]. *)
Lemma uneven_footers_drop_home_pts :
  let cells soup team :=
    map (fun c => (Soup.get "data-stat" c, Soup.text c)) <$> footer_cells soup team in
  (soup ← BeautifulSoup HtmlParser.parse (Pages.box_page "107" "" "119");
   cells soup "LAL")
  = Ok [(Some "mp", "240"); (Some "fg", "41"); (Some "pts", "107")]
  /\ (soup ← BeautifulSoup HtmlParser.parse (Pages.box_page "107" "" "119");
      cells soup "DEN")
     = Ok [(Some "mp", "240"); (Some "fg", "41"); (Some "fg3_pct", ".412");
           (Some "pts", "119")]
  /\ (soup ← BeautifulSoup HtmlParser.parse (Pages.box_page "107" "" "119");
      visit_stats ← footer_cells soup "LAL";
      home_stats ← footer_cells soup "DEN";
      data ← copy_stats (zip visit_stats home_stats) ∅;
      Ok (data !! "visit_pts", data !! "home_fg3_pct", data !! "home_pts"))
     = Ok (Some (BStr "107"), Some (BStr ".412"), None)
  /\ (get_boxscore HtmlParser.parse
        (Pages.site "" (Pages.box_page "107" "" "119")) Pages.box_url []).1
     = Raise KeyError.
Proof. repeat split; vm_compute; reflexivity. Qed.

(** C10, witness: on the example page the example address gives the date
    it holds, and the address without "www.", whose characters 47 to 54
    are not a date, gives [ValueError]. *)
Lemma match_date_from_url_witness :
  get_boxscore HtmlParser.parse
    (Pages.site "" (Pages.box_page "107" ".333" "119")) Pages.box_url []
  = (Ok Pages.box_data, [Pages.box_url])
  /\ Pages.box_data !! "match_date" = Some (BDate (Py.mk_datetime 2023 10 24))
  /\ get_boxscore HtmlParser.parse
       (Pages.site "" (Pages.box_page "107" ".333" "119")) Pages.short_box_url []
     = (Raise ValueError, [] ++ [Pages.short_box_url])
  /\ Py.slice 47 55 Pages.box_url = "20231024".
Proof.
  set (page := Pages.box_page "107" ".333" "119").
  set (soup := Soup.document (HtmlParser.read page)).
  assert (Hsoup : BeautifulSoup HtmlParser.parse page = Ok soup) by reflexivity.
  assert (Hweb : Pages.site "" page Pages.box_url = Ok page) by reflexivity.
  assert (Hshort : Pages.site "" page Pages.short_box_url = Ok page) by reflexivity.
  assert (Hdate : Py.strptime_Ymd (Py.slice 47 55 Pages.box_url)
                  = Some (Py.mk_datetime 2023 10 24)) by (vm_compute; reflexivity).
  assert (Hnone : Py.strptime_Ymd (Py.slice 47 55 Pages.short_box_url) = None)
    by (vm_compute; reflexivity).
  destruct (Soup.find "div" [("class", Soup.AttrIs "scorebox")] soup)
    as [scorebox|] eqn:Hscorebox; [|exfalso; vm_compute in Hscorebox; discriminate].
  pose proof (match_date_from_url HtmlParser.parse (Pages.site "" page) Pages.box_url
                page soup [] Hweb Hsoup) as [Hlong Hslice].
  pose proof (match_date_from_url HtmlParser.parse (Pages.site "" page) Pages.short_box_url
                page soup [] Hshort Hsoup) as [Hraise _].
  rewrite Hscorebox in Hlong, Hraise.
  rewrite Hdate in Hlong. rewrite Hnone in Hraise. destruct Hlong as [Hlong _].
  split; [exact box_page_run|]. split; [|split; [exact Hraise|]].
  - apply Hlong. exact (f_equal fst box_page_run).
  - by apply (Hslice "20231024" "0DEN.html").
Defined.

(** C10, counterexample: the example address with scheme and host in upper
    case is not the canonical address, does not even start with the base
    address, and gives the same, right date as the canonical one, with no
    error. *)
Lemma upper_case_host_gives_the_date :
  Pages.upper_case_box_url <> Pages.box_url
  /\ Py.starts_with BASE_URL Pages.upper_case_box_url = false
  /\ (fun data => data !! "match_date")
     <$> (get_boxscore HtmlParser.parse
            (Pages.site "" (Pages.box_page "107" ".333" "119"))
            Pages.upper_case_box_url []).1
     = Ok (Some (BDate (Py.mk_datetime 2023 10 24)))
  /\ (fun data => data !! "match_date")
     <$> (get_boxscore HtmlParser.parse
            (Pages.site "" (Pages.box_page "107" ".333" "119")) Pages.box_url []).1
     = Ok (Some (BDate (Py.mk_datetime 2023 10 24))).
Proof.
  split; [discriminate|]. repeat split; vm_compute; reflexivity.
Qed.

(** C2, witness: the injuries table of the example team page, kept in a
    comment. *)
Lemma injury_report_cases_witness :
  Pages.site Pages.injuries_in_comment "" (team_url "DEN" 2024)
  = Ok (Pages.team_page Pages.injuries_in_comment)
  /\ BeautifulSoup HtmlParser.parse (Pages.team_page Pages.injuries_in_comment)
     = Ok (Soup.document (HtmlParser.read (Pages.team_page Pages.injuries_in_comment)))
  /\ exists r,
      get_injury_report HtmlParser.parse
        (Pages.site Pages.injuries_in_comment "") "DEN" 2024 []
      = (r, [] ++ [team_url "DEN" 2024])
      /\ r = Ok (Some ["Murray,Jamal"; "Cancar,Vlatko"]).
Proof.
  assert (Hweb : Pages.site Pages.injuries_in_comment "" (team_url "DEN" 2024)
                 = Ok (Pages.team_page Pages.injuries_in_comment))
    by (vm_compute; reflexivity).
  assert (Hsoup : BeautifulSoup HtmlParser.parse (Pages.team_page Pages.injuries_in_comment)
                  = Ok (Soup.document
                          (HtmlParser.read (Pages.team_page Pages.injuries_in_comment))))
    by reflexivity.
  split; [exact Hweb|]. split; [exact Hsoup|].
  destruct (injury_report_cases HtmlParser.parse
              (Pages.site Pages.injuries_in_comment "") "DEN" 2024 []
              (Pages.team_page Pages.injuries_in_comment) _ Hweb Hsoup)
    as (r & Hrun & _ & _ & _).
  exists r. split; [exact Hrun|].
  apply (f_equal fst) in Hrun. simpl in Hrun. rewrite <- Hrun.
  vm_compute. reflexivity.
Defined.

(** C2, counterexample. With the table placed directly in the container
    the code returns null where the two-phase extraction of the
    specification returns the players; and with a comment that holds no
    table the code raises where the specification returns null. *)
Lemma injury_report_differs_from_spec :
  (soup ← BeautifulSoup HtmlParser.parse (Pages.team_page Pages.injuries_direct);
   Ok (injury_report_of HtmlParser.parse soup, spec_injury_report_of HtmlParser.parse soup))
  = Ok (Ok None, Ok (Some ["Murray,Jamal"; "Cancar,Vlatko"]))
  /\ (soup ← BeautifulSoup HtmlParser.parse
               (Pages.team_page Pages.injuries_comment_without_table);
      Ok (injury_report_of HtmlParser.parse soup,
          spec_injury_report_of HtmlParser.parse soup))
     = Ok (Raise AttributeError, Ok None)
  /\ (get_injury_report HtmlParser.parse
        (Pages.site Pages.injuries_comment_without_table "") "DEN" 2024 []).1
     = Raise AttributeError.
Proof. repeat split; vm_compute; reflexivity. Qed.


(** C4, witness: a row that carries its box-score anchor, and one that
    does not yet. *)
Lemma get_match_data_fields_witness :
  get_match_data Pages.linked_row
  = Ok (mk_entry (BASE_URL +:+ "/boxscores/202310240DEN.html")
          (Py.slice 0 8 "202310240DEN") (Py.slice 0 3 "LAL.202310240DEN")
          (Py.slice 13 16 "LAL.202310240DEN"))
  /\ get_match_data Pages.unlinked_row
     = Ok (mk_entry
             (BASE_URL +:+ "/boxscores/" +:+ Py.slice 0 8 "202404200DEN"
              +:+ Py.slice 13 16 "LAL.202404200DEN" +:+ "0.html")
             (Py.slice 0 8 "202404200DEN") (Py.slice 0 3 "LAL.202404200DEN")
             (Py.slice 13 16 "LAL.202404200DEN"))
  /\ Py.slice 13 16 "LAL.202404200DEN" = "DEN".
Proof.
  split; [|split; [|reflexivity]].
  - apply (proj1 (get_match_data_fields Pages.linked_row
                    (Pages.cell "td" "visitor_team_name" [("csk", "LAL.202310240DEN")]
                       [Soup.NavigableString "visitor"])
                    (Pages.cell "th" "date_game" [("csk", "202310240DEN")]
                       [Soup.NavigableString "a date"])
                    (Pages.cell "td" "box_score_text" [] [Pages.box_anchor])
                    "LAL.202310240DEN" "202310240DEN"
                    eq_refl eq_refl eq_refl eq_refl eq_refl) Pages.box_anchor);
      reflexivity.
  - apply (proj2 (get_match_data_fields Pages.unlinked_row
                    (Pages.cell "td" "visitor_team_name" [("csk", "LAL.202404200DEN")]
                       [Soup.NavigableString "visitor"])
                    (Pages.cell "th" "date_game" [("csk", "202404200DEN")]
                       [Soup.NavigableString "a date"])
                    (Pages.cell "td" "box_score_text" [] [])
                    "LAL.202404200DEN" "202404200DEN"
                    eq_refl eq_refl eq_refl eq_refl eq_refl)).
    reflexivity.
Defined.

Lemma season_pages_entries :
  Forall2 (page_entries HtmlParser.parse)
    [Pages.october; Pages.november; Pages.april]
    [Pages.october_entries; Pages.november_entries; Pages.april_entries].
Proof.
  repeat (constructor;
          [apply (proj1 (parse_matches_page_entries HtmlParser.parse _ _));
           vm_compute; reflexivity|]).
  constructor.
Qed.

(** C3, witness: the season of three months. Three calls for three links,
    and five entries: the "Playoffs" row of April is left out. *)
Lemma get_all_schedule_fetches_and_rows_witness :
  get_all_schedule HtmlParser.parse (Pages.site "" "") 2024 []
  = (Ok (concat [Pages.october_entries; Pages.november_entries; Pages.april_entries]),
     [] ++ season_url 2024 :: tail Pages.month_links)
  /\ List.length (season_url 2024 :: tail Pages.month_links)
     = (1 + (List.length Pages.month_links - 1))%nat.
Proof.
  apply (get_all_schedule_fetches_and_rows HtmlParser.parse (Pages.site "" "")
           2024 [] Pages.october Pages.month_links [Pages.november; Pages.april]).
  - vm_compute. reflexivity.
  - vm_compute. reflexivity.
  - vm_compute. reflexivity.
  - exact season_pages_entries.
Defined.

Lemma season_run :
  get_all_schedule HtmlParser.parse (Pages.site "" "") 2024 []
  = (Ok (Pages.october_entries ++ Pages.november_entries ++ Pages.april_entries),
     season_url 2024 :: tail Pages.month_links).
Proof. vm_compute. reflexivity. Qed.

(** C5, witness: Denver plays three of the five games of the season. *)
Lemma get_team_schedule_subset_witness :
  exists team_schedule,
    get_team_schedule HtmlParser.parse (Pages.site "" "") "DEN" 2024 []
    = (Ok team_schedule, season_url 2024 :: tail Pages.month_links)
    /\ team_schedule
       = List.filter (plays "DEN")
           (Pages.october_entries ++ Pages.november_entries ++ Pages.april_entries)
    /\ sublist team_schedule
         (Pages.october_entries ++ Pages.november_entries ++ Pages.april_entries)
    /\ Forall (fun m => home_team m = "DEN" \/ visit_team m = "DEN") team_schedule.
Proof.
  exact (get_team_schedule_subset HtmlParser.parse (Pages.site "" "") "DEN" 2024 []
           _ _ season_run).
Defined.

Lemma roster_run :
  get_roster HtmlParser.parse (Pages.site "" "") Q Pages.decimal "DEN" 2024 []
  = (Ok Pages.roster_data, [team_url "DEN" 2024]).
Proof. apply run_with_items_list; vm_compute; reflexivity. Qed.

(** C6, witness: the roster of two players. *)
Lemma get_roster_records_witness :
  let soup := Soup.document (HtmlParser.read (Pages.team_page "")) in
  exists table_rows,
    Pages.site "" "" (team_url "DEN" 2024) = Ok (Pages.team_page "")
    /\ BeautifulSoup HtmlParser.parse (Pages.team_page "") = Ok soup
    /\ roster_rows soup = Ok table_rows
    /\ forallb (fun row => forallb (cell_builds Q Pages.decimal) (Soup.find_all "td" [] row))
         table_rows = true
    /\ exists records,
        get_roster HtmlParser.parse (Pages.site "" "") Q Pages.decimal "DEN" 2024 []
        = (Ok records, [] ++ [team_url "DEN" 2024])
        /\ List.length records = List.length table_rows
        /\ Forall2 (fun row data =>
                      roster_row Q Pages.decimal row = Ok data
                      /\ coerced_fields Q Pages.decimal (Soup.find_all "td" [] row) data)
             table_rows records.
Proof.
  intros soup.
  assert (Hweb : Pages.site "" "" (team_url "DEN" 2024) = Ok (Pages.team_page ""))
    by (vm_compute; reflexivity).
  assert (Hsoup : BeautifulSoup HtmlParser.parse (Pages.team_page "") = Ok soup)
    by reflexivity.
  assert (Hcells : match roster_rows soup with
                   | Ok rows =>
                       forallb (fun row => forallb (cell_builds Q Pages.decimal)
                                             (Soup.find_all "td" [] row)) rows = true
                   | Raise _ => False
                   end) by (vm_compute; reflexivity).
  destruct (roster_rows soup) as [table_rows|e] eqn:Hrows; [|destruct Hcells].
  exists table_rows. split; [exact Hweb|]. split; [exact Hsoup|].
  split; [reflexivity|]. split; [exact Hcells|].
  exact (get_roster_records HtmlParser.parse (Pages.site "" "") Q Pages.decimal
           "DEN" 2024 [] (Pages.team_page "") soup table_rows Hweb Hsoup Hrows Hcells).
Defined.

(** C6, counterexample: a roster of one row whose weight cell is empty.
    The table body has one row and the call returns no record: [int] of
    the empty text raises [ValueError]. *)
Lemma unweighed_player_fails_roster :
  (soup ← BeautifulSoup HtmlParser.parse Pages.unweighed_player_page;
   table_rows ← roster_rows soup;
   Ok (List.length table_rows)) = Ok 1%nat
  /\ get_roster HtmlParser.parse (fun _ => Ok Pages.unweighed_player_page)
       Q Pages.decimal "DEN" 2024 []
     = (Raise ValueError, [team_url "DEN" 2024]).
Proof. split; vm_compute; reflexivity. Qed.

(** * The fetcher *)

Section FetcherProperties.

Import Fetcher.

Variable respond : nat -> string -> result string.
Variable latency : nat -> Q.

Local Open Scope Q_scope.

(** The retry predicate of [make_request] holds of the instances of
    [RequestException], [ConnectionError] among them. *)
Lemma retry_iff_request_exception (e : exn) :
  retry make_request_policy e = isinstance e RequestException.
Proof. destruct e; reflexivity. Qed.

Lemma waits_app (evs1 evs2 : list event) :
  waits (evs1 ++ evs2) = (waits evs1 ++ waits evs2)%list.
Proof. unfold waits. apply flat_map_app. Qed.

(** Whatever the limiter does first, the call that goes through meets
    the next answer of the network, and tenacity has not slept. *)
Lemma sleep_and_retry_outcome (fuel : nat) (request_url : string) (w w' : world)
    (r : result string) :
  sleep_and_retry respond latency fuel request_url w = Some (r, w') ->
  r = respond (issued w) request_url
  /\ issued w' = S (issued w)
  /\ clamped_calls (lim w') = clamped_calls (lim w)
  /\ waits (events w') = waits (events w).
Proof.
  revert w. induction fuel as [|fuel IH]; intros w H; [discriminate|].
  simpl in H. unfold limited in H.
  destruct (Qle_bool _ 0); simpl in H;
    match type of H with
    | context [if ?c then _ else _] => destruct c; simpl in H
    end;
    try (apply IH in H as (-> & Hi & Hc & Hw); simpl in *;
         rewrite Hw, waits_app; simpl; rewrite app_nil_r; by auto);
    inversion H; subst; simpl; rewrite waits_app; simpl;
    rewrite app_nil_r; auto.
Qed.

(** The loop of [sleep_and_retry] ends: after one sleep of the time that
    remains the period is over. *)
Lemma sleep_and_retry_returns (fuel : nat) (request_url : string) (w : world) :
  (1 <= clamped_calls (lim w))%nat -> (2 <= fuel)%nat ->
  exists w',
    sleep_and_retry respond latency fuel request_url w
    = Some (respond (issued w) request_url, w').
Proof.
  intros Hc Hfuel. destruct fuel as [|[|fuel]]; [lia | lia |].
  assert (forall n, (1 <= n)%nat -> (n <? 1)%nat = false) as Hlt
      by (intros n Hn; apply Nat.ltb_ge; lia).
  change (sleep_and_retry respond latency (S (S fuel)) request_url w)
    with (match limited respond latency request_url w with
          | (inl pr, w') =>
              sleep_and_retry respond latency (S fuel) request_url (sleep Throttle pr w')
          | (inr r, w') => Some (r, w')
          end).
  unfold limited at 1.
  destruct (Qle_bool (period (lim w) - (now w - last_reset (lim w))) 0) eqn:E1; simpl.
  - replace (clamped_calls (lim w) <? 1)%nat with false
      by (symmetry; apply Nat.ltb_ge; lia).
    simpl. eauto.
  - destruct (clamped_calls (lim w) <? S (num_calls (lim w)))%nat eqn:E2; simpl; [|eauto].
    unfold limited. simpl.
    match goal with
    | |- context [Qle_bool ?x 0] =>
        replace (Qle_bool x 0) with true
          by (symmetry; apply Qle_bool_iff; lra)
    end.
    simpl.
    replace (clamped_calls (lim w) <? 1)%nat with false
      by (symmetry; apply Nat.ltb_ge; lia).
    simpl. eauto.
Qed.

Lemma retrying_S (policy : retry_policy) (fuel attempt_number : nat)
    (request_url : string) (w : world) :
  retrying respond latency policy (S fuel) attempt_number request_url w
  = match sleep_and_retry respond latency (S (S fuel)) request_url w with
    | None => None
    | Some (Ok text, w') => Some (Ok text, w')
    | Some (Raise e, w') =>
        if retry policy e then
          if stop policy attempt_number then Some (Raise RetryError, w')
          else retrying respond latency policy fuel (S attempt_number) request_url
                 (sleep Wait (wait policy attempt_number) w')
        else Some (Raise e, w')
    end.
Proof. reflexivity. Qed.

(** An exception that leaves the retry loop is one the predicate
    rejects. *)
Lemma retrying_never_raises_retried (fuel attempt_number : nat) (request_url : string)
    (w w' : world) (e : exn) :
  retrying respond latency make_request_policy fuel attempt_number request_url w
  = Some (Raise e, w') ->
  retry make_request_policy e = false.
Proof.
  revert attempt_number w. induction fuel as [|fuel IH]; intros a w H; [discriminate|].
  rewrite retrying_S in H.
  destruct (sleep_and_retry respond latency (S (S fuel)) request_url w)
    as [[[text|e0] w1]|]; try discriminate.
  destruct (retry make_request_policy e0) eqn:E.
  - simpl stop in H. unfold stop_never in H. by apply IH in H.
  - inversion H; subst. exact E.
Qed.

(** After [n] answers that the predicate retries, the loop returns the
    next answer when the predicate does not retry it; it has slept three
    seconds after each of the [n]. *)
Lemma retrying_returns (n attempt_number : nat) (request_url : string) (w : world)
    (o : result string) :
  (1 <= clamped_calls (lim w))%nat ->
  (forall k, (k < n)%nat ->
     exists e, respond (issued w + k)%nat request_url = Raise e
               /\ retry make_request_policy e = true) ->
  respond (issued w + n)%nat request_url = o ->
  (forall e, o = Raise e -> retry make_request_policy e = false) ->
  exists w',
    retrying respond latency make_request_policy (S n) attempt_number request_url w
    = Some (o, w')
    /\ issued w' = (issued w + n + 1)%nat
    /\ waits (events w') = (waits (events w) ++ repeat 3 n)%list.
Proof.
  revert attempt_number w.
  induction n as [|n IH]; intros a w Hc Hfail Hlast Hstop.
  - destruct (sleep_and_retry_returns 2 request_url w Hc) as (w1 & Hrun); [lia|].
    rewrite retrying_S, Hrun.
    destruct (sleep_and_retry_outcome _ _ _ _ _ Hrun) as (_ & Hi & _ & Hw).
    rewrite Nat.add_0_r in Hlast. rewrite Hlast.
    exists w1. rewrite Hi, Hw, app_nil_r.
    split; [|split; [lia | done]].
    destruct o as [text|e]; [done|]. by rewrite (Hstop e eq_refl).
  - destruct (sleep_and_retry_returns (S (S (S n))) request_url w Hc) as (w1 & Hrun); [lia|].
    destruct (sleep_and_retry_outcome _ _ _ _ _ Hrun) as (_ & Hi & Hcl & Hw).
    destruct (Hfail 0%nat) as (e & He & Hretry); [lia|].
    rewrite Nat.add_0_r in He.
    rewrite retrying_S, Hrun, He, Hretry. simpl stop. unfold stop_never.
    destruct (IH (S a) (sleep Wait (wait make_request_policy a) w1))
      as (w' & Hrec & Hi' & Hw').
    + simpl. lia.
    + intros k Hk. simpl. rewrite Hi.
      destruct (Hfail (S k)) as (e' & He' & Hr'); [lia|].
      exists e'. split; [|done]. rewrite <- He'. f_equal. lia.
    + simpl. rewrite Hi. rewrite <- Hlast. f_equal. lia.
    + exact Hstop.
    + exists w'. split; [exact Hrec|]. split.
      * rewrite Hi'. simpl. lia.
      * rewrite Hw'. simpl. rewrite waits_app, Hw. simpl.
        by rewrite <- app_assoc.
Qed.

(** While the network keeps answering with retried exceptions the loop
    goes on: no amount of fuel gives a result. *)
Lemma retrying_goes_on (fuel attempt_number : nat) (request_url : string) (w : world) :
  (forall k, exists e, respond (issued w + k)%nat request_url = Raise e
                       /\ retry make_request_policy e = true) ->
  retrying respond latency make_request_policy fuel attempt_number request_url w = None.
Proof.
  revert attempt_number w. induction fuel as [|fuel IH]; intros a w Hfail; [done|].
  rewrite retrying_S.
  destruct (sleep_and_retry respond latency (S (S fuel)) request_url w)
    as [[r w1]|] eqn:Hrun; [|done].
  destruct (sleep_and_retry_outcome _ _ _ _ _ Hrun) as (-> & Hi & _).
  destruct (Hfail 0%nat) as (e & He & Hretry). rewrite Nat.add_0_r in He.
  rewrite He, Hretry. simpl stop. unfold stop_never.
  apply IH. intros k. simpl. rewrite Hi.
  destruct (Hfail (S k)) as (e' & He' & Hr').
  exists e'. split; [|done]. rewrite <- He'. f_equal. lia.
Qed.

(** C8. [make_request] retries every instance of [RequestException]
    (the connection errors among them): none of them ever reaches the
    caller; after [n] of them in a row it returns the next answer, page
    or other exception, having waited three seconds after each of the
    [n], for every [n]; and while the network only answers with them no
    bound on the attempts ends the call. *)
Theorem network_errors_are_retried (request_url : string) (w : world) :
  (1 <= clamped_calls (lim w))%nat ->
  (forall fuel w' e,
      make_request respond latency fuel request_url w = Some (Raise e, w') ->
      isinstance e RequestException = false)
  /\ (forall n o,
         (forall k, (k < n)%nat ->
            exists e, respond (issued w + k)%nat request_url = Raise e
                      /\ isinstance e RequestException = true) ->
         respond (issued w + n)%nat request_url = o ->
         (forall e, o = Raise e -> isinstance e RequestException = false) ->
         exists w',
           make_request respond latency (S n) request_url w = Some (o, w')
           /\ issued w' = (issued w + n + 1)%nat
           /\ waits (events w') = (waits (events w) ++ repeat 3 n)%list)
  /\ ((forall k, exists e, respond (issued w + k)%nat request_url = Raise e
                           /\ isinstance e RequestException = true) ->
      forall fuel, make_request respond latency fuel request_url w = None).
Proof.
  intros Hc. unfold make_request. split; [|split].
  - intros fuel w' e H. rewrite <- retry_iff_request_exception.
    by eapply retrying_never_raises_retried.
  - intros n o Hfail Hlast Hstop. apply retrying_returns; auto.
    + intros k Hk. destruct (Hfail k Hk) as (e & He & Hr).
      exists e. by rewrite retry_iff_request_exception.
    + intros e He. rewrite retry_iff_request_exception. by apply Hstop.
  - intros Hfail fuel. apply retrying_goes_on.
    intros k. destruct (Hfail k) as (e & He & Hr).
    exists e. by rewrite retry_iff_request_exception.
Qed.

(** ** Further properties of the limiter *)

Lemma request_times_app (evs1 evs2 : list event) :
  request_times (evs1 ++ evs2) = (request_times evs1 ++ request_times evs2)%list.
Proof. unfold request_times. apply flat_map_app. Qed.

Lemma sleep_and_retry_S (fuel : nat) (request_url : string) (w : world) :
  sleep_and_retry respond latency (S fuel) request_url w
  = match limited respond latency request_url w with
    | (inl period_remaining, w') =>
        sleep_and_retry respond latency fuel request_url (sleep Throttle period_remaining w')
    | (inr r, w') => Some (r, w')
    end.
Proof. reflexivity. Qed.

(** Once the limiter has let a call through, the next request goes out
    no sooner than a period after [last_reset], and [last_reset] becomes
    the time of that request. *)
Lemma sleep_and_retry_anchor (fuel : nat) (request_url : string) (w w' : world)
    (r : result string) :
  clamped_calls (lim w) = 1%nat -> (1 <= num_calls (lim w))%nat ->
  sleep_and_retry respond latency fuel request_url w = Some (r, w') ->
  exists t,
    request_times (events w') = (request_times (events w) ++ [t])%list
    /\ last_reset (lim w) + period (lim w) <= t
    /\ last_reset (lim w') = t
    /\ num_calls (lim w') = 1%nat
    /\ clamped_calls (lim w') = 1%nat
    /\ period (lim w') = period (lim w).
Proof.
  revert w. induction fuel as [|fuel IH]; intros w Hc Hn H; [discriminate|].
  rewrite sleep_and_retry_S in H. unfold limited in H.
  destruct (Qle_bool (period (lim w) - (now w - last_reset (lim w))) 0) eqn:E;
    simpl in H.
  - rewrite Hc in H. simpl in H. inversion H; subst; clear H. simpl.
    exists (now w). rewrite request_times_app. simpl.
    apply Qle_bool_iff in E. repeat split; auto. lra.
  - rewrite Hc in H.
    destruct (num_calls (lim w)) as [|n] eqn:En; [lia|]. simpl in H.
    apply IH in H as (t & Ht & Hle & Hreset & Hnum & Hcl & Hper); simpl; [|done|lia].
    simpl in *. exists t. rewrite Ht, request_times_app. simpl.
    rewrite app_nil_r. repeat split; auto.
Qed.

(** X11. After the first request of the process, two requests that follow
    each other are at least a period (three seconds) apart, whatever the
    caller and the retry loop do in between, as long as they leave the
    limiter alone. *)
Theorem consecutive_requests_a_period_apart (fuel1 fuel2 : nat)
    (url1 url2 : string) (w w1 w1' w2 : world) (r1 r2 : result string) :
  clamped_calls (lim w) = 1%nat -> (1 <= num_calls (lim w))%nat ->
  sleep_and_retry respond latency fuel1 url1 w = Some (r1, w1) ->
  lim w1' = lim w1 ->
  sleep_and_retry respond latency fuel2 url2 w1' = Some (r2, w2) ->
  exists t1 t2,
    request_times (events w1) = (request_times (events w) ++ [t1])%list
    /\ request_times (events w2) = (request_times (events w1') ++ [t2])%list
    /\ t1 + period (lim w) <= t2.
Proof.
  intros Hc Hn H1 Hlim H2.
  apply sleep_and_retry_anchor in H1 as (t1 & Ht1 & _ & Hreset & Hnum & Hcl & Hper);
    [|done..].
  apply sleep_and_retry_anchor in H2 as (t2 & Ht2 & Hle & _);
    [|rewrite Hlim; done | rewrite Hlim; lia].
  exists t1, t2. rewrite Hlim, Hreset, Hper in Hle. auto.
Qed.

(** A call that the limiter lets return made its request between the time
    of the call and a period after it. *)
Lemma returned_within_a_period (fuel : nat) (request_url : string) (w w' : world)
    (r : result string) :
  clamped_calls (lim w) = 1%nat ->
  0 <= period (lim w) ->
  last_reset (lim w) <= now w ->
  sleep_and_retry respond latency fuel request_url w = Some (r, w') ->
  exists t,
    request_times (events w') = (request_times (events w) ++ [t])%list
    /\ now w <= t /\ t <= now w + period (lim w).
Proof.
  intros Hc Hperiod Hclock H. destruct fuel as [|fuel]; [discriminate|].
  rewrite sleep_and_retry_S in H. unfold limited in H.
  destruct (Qle_bool (period (lim w) - (now w - last_reset (lim w))) 0) eqn:E;
    simpl in H.
  - rewrite Hc in H. simpl in H. inversion H; subst; clear H. simpl.
    exists (now w). rewrite request_times_app. simpl.
    apply Qle_bool_iff in E. repeat split; auto; lra.
  - assert (0 < period (lim w) - (now w - last_reset (lim w))) as Hpos.
    { apply Qnot_le_lt. intros Hle. apply Qle_bool_iff in Hle. congruence. }
    rewrite Hc in H.
    destruct (num_calls (lim w)) as [|n] eqn:En; simpl in H.
    + inversion H; subst; clear H. simpl.
      exists (now w). rewrite request_times_app. simpl. repeat split; auto; lra.
    + destruct fuel as [|fuel]; [discriminate|].
      rewrite sleep_and_retry_S in H. unfold limited in H. simpl in H.
      match type of H with
      | context [Qle_bool ?x 0] =>
          replace (Qle_bool x 0) with true in H
            by (symmetry; apply Qle_bool_iff; lra)
      end.
      simpl in H. try rewrite Hc in H. simpl in H. inversion H; subst; clear H. simpl.
      eexists. rewrite !request_times_app. simpl. rewrite app_nil_r.
      split; [reflexivity|]. split; lra.
Qed.

(** X12. The limiter delays a call and never holds it: with a clock that
    has not gone back behind [last_reset], the call returns after two
    turns of the loop of [sleep_and_retry] at most, with the answer of
    the network, and its request goes out between the time of the call
    and a period after it. *)
Theorem limiter_delay_bound (fuel : nat) (request_url : string) (w : world) :
  clamped_calls (lim w) = 1%nat ->
  0 <= period (lim w) ->
  last_reset (lim w) <= now w ->
  (2 <= fuel)%nat ->
  exists w' t,
    sleep_and_retry respond latency fuel request_url w
    = Some (respond (issued w) request_url, w')
    /\ request_times (events w') = (request_times (events w) ++ [t])%list
    /\ now w <= t /\ t <= now w + period (lim w).
Proof.
  intros Hc Hperiod Hclock Hfuel.
  destruct (sleep_and_retry_returns fuel request_url w) as (w' & Hrun); [lia | done |].
  destruct (returned_within_a_period _ _ _ _ _ Hc Hperiod Hclock Hrun) as (t & Ht).
  by exists w', t.
Qed.

End FetcherProperties.

(** C8, witness: two connection errors, then the page. The call returns
    the page at the third attempt, after two waits of three seconds. *)
Lemma network_errors_are_retried_witness :
  (1 <= Fetcher.clamped_calls (Fetcher.lim Fetcher.first_call))%nat
  /\ exists w',
      Fetcher.make_request Fetcher.two_failures Fetcher.half_a_second 3 "u" Fetcher.first_call
      = Some (Ok "page", w')
      /\ Fetcher.issued w' = (Fetcher.issued Fetcher.first_call + 2 + 1)%nat
      /\ Fetcher.waits (Fetcher.events w')
         = (Fetcher.waits (Fetcher.events Fetcher.first_call) ++ repeat 3%Q 2)%list.
Proof.
  assert (H : (1 <= Fetcher.clamped_calls (Fetcher.lim Fetcher.first_call))%nat)
    by (simpl; lia).
  split; [exact H|].
  apply (proj1 (proj2 (network_errors_are_retried Fetcher.two_failures
                         Fetcher.half_a_second "u" Fetcher.first_call H))
           2%nat (Ok "page")).
  - intros k Hk. exists ConnectionError. split; [|reflexivity].
    destruct k as [|[|k]]; [reflexivity | reflexivity | lia].
  - reflexivity.
  - intros e He. discriminate.
Defined.

(** C9, the failing run. The module is imported when the clock shows 0 and
    the first call comes at 2: the limiter's first period began at the
    import, so the call goes through without starting a new one. The
    second call, made as soon as the first returns, sleeps until the
    period that began at the import is over and goes out at 3: one second
    after the first request, where two fetches should be three seconds
    apart. *)
Lemma second_request_one_second_after_first :
  match Fetcher.make_request Fetcher.always_answers Fetcher.half_a_second 1 "u"
          Fetcher.first_call with
  | Some (_, w1) =>
      match Fetcher.make_request Fetcher.always_answers Fetcher.half_a_second 1 "u" w1 with
      | Some (_, w2) => map Qred (Fetcher.request_times (Fetcher.events w2))
      | None => []
      end
  | None => []
  end = [2%Q; 3%Q]
  /\ (3 - 2 < 3 * (2 - 1))%Q.
Proof. split; [vm_compute; reflexivity | reflexivity]. Qed.

(** * The further properties on concrete pages *)

Lemma result_with_items {A : Type} (r : result (gmap string A)) (d : gmap string A) :
  map_to_list <$> r = Ok (map_to_list d) -> r = Ok d.
Proof.
  destruct r as [d'|e]; simpl; intros H; [|discriminate].
  inversion H as [H']. apply same_items in H'. by subst.
Qed.

Lemma finals_page_run :
  get_boxscore HtmlParser.parse (Pages.site "" Pages.finals_page) Pages.finals_url []
  = (Ok Pages.finals_data, [Pages.finals_url]).
Proof. apply run_with_items; vm_compute; reflexivity. Qed.

(** X3, witness: a row without its date cell raises [AttributeError]. *)
Lemma get_match_data_errors_witness :
  get_match_data Pages.dateless_row = Raise AttributeError
  /\ ((AttributeError = AttributeError
       /\ (Soup.find "td" [("data-stat", Soup.AttrIs "visitor_team_name")] Pages.dateless_row = None
           \/ Soup.find "th" [("data-stat", Soup.AttrIs "date_game")] Pages.dateless_row = None
           \/ Soup.find "td" [("data-stat", Soup.AttrIs "box_score_text")] Pages.dateless_row = None))
      \/ (AttributeError = TypeError
          /\ ((exists c, Soup.find "td" [("data-stat", Soup.AttrIs "visitor_team_name")]
                           Pages.dateless_row = Some c
                         /\ Soup.get "csk" c = None)
              \/ (exists c, Soup.find "th" [("data-stat", Soup.AttrIs "date_game")]
                              Pages.dateless_row = Some c
                            /\ Soup.get "csk" c = None)
              \/ (exists c a, Soup.find "td" [("data-stat", Soup.AttrIs "box_score_text")]
                                Pages.dateless_row = Some c
                              /\ Soup.find "a" [] c = Some a /\ Soup.get "href" a = None)))).
Proof.
  assert (H : get_match_data Pages.dateless_row = Raise AttributeError) by reflexivity.
  split; [exact H|].
  exact (get_match_data_errors Pages.dateless_row AttributeError H).
Defined.

(** X4, witness: a row whose keys are "LAL" and "2024": the home code is empty and the
    date has four characters; nothing is raised. *)
Lemma entry_field_lengths_witness :
  get_match_data Pages.short_key_row
  = Ok (mk_entry (BASE_URL +:+ "/boxscores/20240.html") "2024" "LAL" "")
  /\ (String.length "LAL" <= 3)%nat
  /\ (String.length "" <= 3)%nat
  /\ (String.length "2024" <= 8)%nat
  /\ (String.length "" = 3%nat -> String.length "LAL" = 3%nat).
Proof.
  assert (H : get_match_data Pages.short_key_row
              = Ok (mk_entry (BASE_URL +:+ "/boxscores/20240.html") "2024" "LAL" ""))
    by reflexivity.
  split; [exact H|].
  exact (entry_field_lengths Pages.short_key_row _ H).
Defined.

(** X6, witness: the example box score. *)
Lemma boxscore_keys_witness :
  get_boxscore HtmlParser.parse
    (Pages.site "" (Pages.box_page "107" ".333" "119")) Pages.box_url []
  = (Ok Pages.box_data, [Pages.box_url])
  /\ Forall (fun key => is_Some (Pages.box_data !! key))
       ["match_date"; "visit_team"; "home_team"; "is_playoff"; "playoff_round";
        "home_pts"; "visit_pts"; "game_result"].
Proof.
  split; [exact box_page_run|].
  exact (boxscore_keys HtmlParser.parse
           (Pages.site "" (Pages.box_page "107" ".333" "119"))
           Pages.box_url [] [Pages.box_url] Pages.box_data box_page_run).
Defined.

(** X7, witness: game 5 of the finals. *)
Lemma playoff_fields_witness :
  get_boxscore HtmlParser.parse (Pages.site "" Pages.finals_page) Pages.finals_url []
  = (Ok Pages.finals_data, [Pages.finals_url])
  /\ Pages.finals_data !! "playoff_round" = Some (BStr "5")
  /\ exists text soup,
      Pages.site "" Pages.finals_page Pages.finals_url = Ok text
      /\ BeautifulSoup HtmlParser.parse text = Ok soup
      /\ match Soup.find "span" [("data-label", Soup.AttrIs "All Games in Series")] soup with
         | Some _ =>
             Pages.finals_data !! "is_playoff" = Some (BInt 1)
             /\ exists h1 digit,
                 Soup.find "h1" [] soup = Some h1
                 /\ Py.search_game (Soup.text h1) = Some digit
                 /\ Pages.finals_data !! "playoff_round" = Some (BStr digit)
         | None =>
             Pages.finals_data !! "is_playoff" = Some (BInt 0)
             /\ Pages.finals_data !! "playoff_round" = Some (BInt 0)
         end.
Proof.
  split; [exact finals_page_run|]. split; [vm_compute; reflexivity|].
  exact (playoff_fields HtmlParser.parse (Pages.site "" Pages.finals_page)
           Pages.finals_url [] [Pages.finals_url] Pages.finals_data finals_page_run).
Defined.

(** X8, witness: two footers of one cell each. *)
Lemma equal_footers_copy_every_cell_witness :
  copy_stats (zip Pages.visit_cells Pages.home_cells) ∅ = Ok Pages.copied_cells
  /\ List.length Pages.visit_cells = List.length Pages.home_cells
  /\ (forall v, v ∈ Pages.visit_cells ->
        exists s, Soup.get "data-stat" v = Some s
                  /\ is_Some (Pages.copied_cells !! ("visit_" +:+ s)))
  /\ (forall h, h ∈ Pages.home_cells ->
        exists s, Soup.get "data-stat" h = Some s
                  /\ is_Some (Pages.copied_cells !! ("home_" +:+ s))).
Proof.
  assert (H : copy_stats (zip Pages.visit_cells Pages.home_cells) ∅ = Ok Pages.copied_cells)
    by (apply result_with_items; vm_compute; reflexivity).
  split; [exact H|]. split; [reflexivity|].
  exact (equal_footers_copy_every_cell Pages.visit_cells Pages.home_cells ∅
           Pages.copied_cells H eq_refl).
Defined.

(** X9, witness: a row of two cells. *)
Lemma roster_row_keys_witness :
  roster_row Q Pages.decimal Pages.small_row
  = Ok (list_to_map [("pos", RStr "C"); ("weight", RInt 284)])
  /\ forall cell, cell ∈ Soup.find_all "td" [] Pages.small_row ->
       exists s, Soup.get "data-stat" cell = Some s
                 /\ is_Some ((list_to_map [("pos", RStr "C"); ("weight", RInt 284)]
                              : gmap string (roster_value Q)) !! s).
Proof.
  assert (H : roster_row Q Pages.decimal Pages.small_row
              = Ok (list_to_map [("pos", RStr "C"); ("weight", RInt 284)]))
    by (apply result_with_items; vm_compute; reflexivity).
  split; [exact H|].
  exact (roster_row_keys Q Pages.decimal Pages.small_row _ H).
Defined.

(** X10, witness: the roster of the example team page. *)
Lemma get_roster_all_or_nothing_witness :
  let soup := Soup.document (HtmlParser.read (Pages.team_page "")) in
  exists table_rows,
    Pages.site "" "" (team_url "DEN" 2024) = Ok (Pages.team_page "")
    /\ BeautifulSoup HtmlParser.parse (Pages.team_page "") = Ok soup
    /\ roster_rows soup = Ok table_rows
    /\ ((exists records,
            (get_roster HtmlParser.parse (Pages.site "" "") Q Pages.decimal "DEN" 2024 []).1
            = Ok records)
        <-> Forall (fun row => exists data, roster_row Q Pages.decimal row = Ok data)
              table_rows).
Proof.
  intros soup.
  assert (Hweb : Pages.site "" "" (team_url "DEN" 2024) = Ok (Pages.team_page ""))
    by (vm_compute; reflexivity).
  assert (Hsoup : BeautifulSoup HtmlParser.parse (Pages.team_page "") = Ok soup)
    by reflexivity.
  destruct (roster_rows soup) as [table_rows|e] eqn:Hrows.
  - exists table_rows. split; [exact Hweb|]. split; [exact Hsoup|]. split; [reflexivity|].
    exact (get_roster_all_or_nothing HtmlParser.parse (Pages.site "" "") Q Pages.decimal
             "DEN" 2024 [] (Pages.team_page "") soup table_rows Hweb Hsoup Hrows).
  - exfalso. vm_compute in Hrows. discriminate.
Defined.

(** X11, witness: the second and third request of the process: at 3 and at 6. *)
Lemma consecutive_requests_a_period_apart_witness :
  let run1 := Fetcher.sleep_and_retry Fetcher.always_answers Fetcher.half_a_second 2 "u"
                Fetcher.second_call in
  let w1 := match run1 with Some (_, w) => w | None => Fetcher.second_call end in
  let run2 := Fetcher.sleep_and_retry Fetcher.always_answers Fetcher.half_a_second 2 "u" w1 in
  let w2 := match run2 with Some (_, w) => w | None => w1 end in
  map Qred (Fetcher.request_times (Fetcher.events w2)) = [2%Q; 3%Q; 6%Q]
  /\ exists t1 t2,
      Fetcher.request_times (Fetcher.events w1)
      = (Fetcher.request_times (Fetcher.events Fetcher.second_call) ++ [t1])%list
      /\ Fetcher.request_times (Fetcher.events w2)
         = (Fetcher.request_times (Fetcher.events w1) ++ [t2])%list
      /\ (t1 + Fetcher.period (Fetcher.lim Fetcher.second_call) <= t2)%Q.
Proof.
  cbv zeta. split; [vm_compute; reflexivity|].
  eapply (consecutive_requests_a_period_apart Fetcher.always_answers Fetcher.half_a_second
            2 2 "u" "u" Fetcher.second_call _ _ _ (Ok "page") (Ok "page"));
    [reflexivity | simpl; lia | vm_compute; reflexivity | reflexivity
    | vm_compute; reflexivity].
Defined.

(** X12, witness: the second call of the process returns the page after
    one sleep; its request waits half a second, less than the period. *)
Lemma limiter_delay_bound_witness :
  exists w' t,
    Fetcher.sleep_and_retry Fetcher.always_answers Fetcher.half_a_second 2 "u"
      Fetcher.second_call
    = Some (Fetcher.always_answers (Fetcher.issued Fetcher.second_call) "u", w')
    /\ Fetcher.request_times (Fetcher.events w')
       = (Fetcher.request_times (Fetcher.events Fetcher.second_call) ++ [t])%list
    /\ (Fetcher.now Fetcher.second_call <= t)%Q
    /\ (t <= Fetcher.now Fetcher.second_call
             + Fetcher.period (Fetcher.lim Fetcher.second_call))%Q.
Proof.
  apply (limiter_delay_bound Fetcher.always_answers Fetcher.half_a_second
           2 "u" Fetcher.second_call);
    [reflexivity | vm_compute; discriminate | vm_compute; discriminate | lia].
Defined.
